(** * Zap writing plugin: session machine, idle watchdog and penalty engine

    A shallow embedding of [src/main.ts] (class [DangerousWritingPlugin]),
    with the types it imports from [settings], [modal] and [stats].

    - JavaScript strings are sequences of UTF-16 code units: [list N].
    - Times ([Date.now()], timer delays) and word counts are integers: [Z].
    - The plugin object and the parts of the host it talks to (clock, timer
      table of [window], editors, active view) form one record [World];
      every method is a function [World -> World].
    - The opacity computed by the warning poll is a JavaScript double.  The
      model keeps the expression the source writes ([NumExpr]) and leaves
      its evaluation to the host; [exactValue] gives the rational that the
      double approximates, and nothing is claimed of the double itself.
    - Where the source divides or multiplies integers held in doubles, the
      theorems that state the result bound the operands so that the double
      arithmetic is the integer arithmetic of the model. *)

From Stdlib Require Import ZArith QArith Qpower Lia Lqa List Bool String Ascii Sorted.
From stdpp Require Import gmap list.
Import ListNotations.

Local Open Scope Z_scope.

(** ** JavaScript strings *)

Module JsString.

Definition jsstring : Type := list N.

(** Code units of an ASCII literal, to write the examples of the spec. *)
Definition str (s : String.string) : jsstring :=
  List.map N_of_ascii (list_ascii_of_string s).

(** The characters matched by regex [\s] and stripped by [trim]:
    WhiteSpace and LineTerminator of ECMAScript. *)
Definition isWhiteSpace (c : N) : bool :=
  ((9 <=? c) && (c <=? 13) || (c =? 32) || (c =? 160) || (c =? 5760)
   || (8192 <=? c) && (c <=? 8202) || (c =? 8232) || (c =? 8233)
   || (c =? 8239) || (c =? 8287) || (c =? 12288) || (c =? 65279))%N.

Definition isNewline (c : N) : bool := (c =? 10)%N.

(** The class [[.!?]]. *)
Definition isTerminal (c : N) : bool :=
  ((c =? 46) || (c =? 33) || (c =? 63))%N.

Fixpoint trimStart (s : jsstring) : jsstring :=
  match s with
  | [] => []
  | c :: s' => if isWhiteSpace c then trimStart s' else s
  end.

Definition trimEnd (s : jsstring) : jsstring := rev (trimStart (rev s)).

Definition trim (s : jsstring) : jsstring := trimEnd (trimStart s).

(** Puts [c] in front of the first piece of a split. *)
Definition consHead (c : N) (ps : list jsstring) : list jsstring :=
  match ps with
  | [] => [[c]]
  | p :: ps' => (c :: p) :: ps'
  end.

(** [s.split(/\s+/)]: the separators are the maximal runs of white space.
    [insep] says that the character before [s] belongs to a separator that
    is already open. *)
Fixpoint splitWs (insep : bool) (s : jsstring) : list jsstring :=
  match s with
  | [] => [[]]
  | c :: s' =>
      if isWhiteSpace c
      then (if insep then splitWs true s' else [] :: splitWs true s')
      else consHead c (splitWs false s')
  end.

(** [s.split("\n")]. *)
Fixpoint splitLines (s : jsstring) : list jsstring :=
  match s with
  | [] => [[]]
  | c :: s' =>
      if isNewline c then [] :: splitLines s' else consHead c (splitLines s')
  end.

(** [s.split(/\n\n+/)]: the separators are the maximal runs of two or more
    newlines; a single newline stays inside its piece. *)
Fixpoint splitParagraphs (insep : bool) (s : jsstring) : list jsstring :=
  match s with
  | [] => [[]]
  | c :: s' =>
      if isNewline c then
        if insep then splitParagraphs true s'
        else match s' with
             | c2 :: _ =>
                 if isNewline c2 then [] :: splitParagraphs true s'
                 else consHead c (splitParagraphs false s')
             | [] => consHead c (splitParagraphs false s')
             end
      else consHead c (splitParagraphs false s')
  end.

(** [pieces.join(sep)]. *)
Fixpoint join (sep : jsstring) (ps : list jsstring) : jsstring :=
  match ps with
  | [] => []
  | [p] => p
  | p :: ps' => p ++ sep ++ join sep ps'
  end.

(** [s.match(/[.!?][^.!?]*$/)]: the search tries every start index from the
    left; a start matches when it holds a terminal mark and no terminal mark
    follows it up to the end of the input. The result is the matched text. *)
Fixpoint matchLastSentence (s : jsstring) : option jsstring :=
  match s with
  | [] => None
  | c :: s' =>
      if isTerminal c && forallb (fun d => negb (isTerminal d)) s'
      then Some s
      else matchLastSentence s'
  end.

(** [s.slice(0, n)] for [0 <= n]. *)
Definition slice0 (n : nat) (s : jsstring) : jsstring := firstn n s.

End JsString.
Import JsString.

(** ** Word counter *)

(** The filter [(word) => word.length > 0]. *)
Definition nonEmpty (word : jsstring) : bool := (0 <? List.length word)%nat.

(** [countWords]:
    [text.trim().split(/\s+/).filter((word) => word.length > 0).length]. *)
Definition countWords (text : jsstring) : Z :=
  Z.of_nat (List.length (List.filter nonEmpty (splitWs false (trim text)))).

(** The spec's words: the number of maximal runs of characters that are not
    white space. [inrun] says that the previous character is part of a run. *)
Fixpoint nonWhitespaceRuns (inrun : bool) (s : jsstring) : nat :=
  match s with
  | [] => 0
  | c :: s' =>
      if isWhiteSpace c then nonWhitespaceRuns false s'
      else ((if inrun then 0 else 1) + nonWhitespaceRuns true s')%nat
  end.

(** ** Penalty engine *)

Inductive PenaltyType : Type := PenaltyAll | PenaltyParagraph | PenaltySentence.

(** [applyPenalty(editor, content)], with [this.settings.penaltyType] passed
    as [penaltyType]; the editor argument is not used by the source. *)
Definition applyPenalty (penaltyType : PenaltyType) (content : jsstring) : jsstring :=
  match penaltyType with
  | PenaltyAll => []
  | PenaltySentence =>
      let result := trimEnd content in
      match matchLastSentence result with
      | Some lastSentenceMatch =>
          slice0 (List.length result - List.length lastSentenceMatch) result
      | None =>
          let lines := splitLines result in
          if (1 <? List.length lines)%nat
          then join [10%N] (removelast lines)
          else []
      end
  | PenaltyParagraph =>
      let paragraphs := splitParagraphs false content in
      if (1 <? List.length paragraphs)%nat
      then join [10%N; 10%N] (removelast paragraphs)
      else []
  end.

(** ** Data model *)

(** [PenaltyType] is the union ['all' | 'paragraph' | 'sentence'] of
    [settings]; the fields of [DangerousWritingSettings] the session logic
    reads. *)
Record Settings : Type := mkSettings {
  idleTimeoutSeconds : Z;
  practiceMode : bool;
  warningThresholdSeconds : Z;
  penaltyType : PenaltyType
}.

(** [SessionConfig] of [modal]. *)
Record SessionConfig : Type := mkSessionConfig {
  durationMinutes : option Z;
  configWordCountGoal : option Z
}.

(** [SessionRecord] of [stats]. *)
Record SessionRecord : Type := mkSessionRecord {
  timestamp : Z;
  durationSeconds : Z;
  wordsWritten : Z;
  completed : bool
}.

(** A [TFile] object: [file_id] stands for the identity of the object
    (compared by [===]), [path] is its field. *)
Record TFile : Type := mkTFile {
  file_id : nat;
  path : jsstring
}.

(** A [MarkdownView]: its file and the key of its editor in [editors]. *)
Record MarkdownView : Type := mkMarkdownView {
  file : option TFile;
  editor : nat
}.

(** The view of a workspace leaf: a [MarkdownView] or anything else. *)
Inductive View : Type :=
  | ViewMarkdown (view : MarkdownView)
  | ViewOther.

(** JavaScript number expressions as the source writes them.  The host
    evaluates them in double precision, and [Math.pow] is its own; the
    model keeps the expression and does not evaluate it. *)
Inductive NumExpr : Type :=
  | NumInt (z : Z)
  | NumDecimal (q : Q)
  | NumAdd (a b : NumExpr)
  | NumSub (a b : NumExpr)
  | NumMul (a b : NumExpr)
  | NumDiv (a b : NumExpr)
  | NumPow (a : NumExpr) (n : Z).


(** The overlay element: [backgroundColor] is [None] for the empty style and
    [Some a] for [rgba(r, g, b, a)], with [a] the expression of the opacity. *)
Record Overlay : Type := mkOverlay {
  backgroundColor : option NumExpr
}.

(** The closures handed to [window.setInterval] and [window.setTimeout]. *)
Inductive TimerCallback : Type :=
  | GoalCheck (editor : nat)
  | IdleTimeout
  | WarningCheck (warningThreshold : Z).

(** A pending timer of [window]. *)
Record Timer : Type := mkTimer {
  repeating : bool;
  delayMs : Z;
  callback : TimerCallback
}.

(** The fields of the plugin object, followed by the host: the clock, the
    pending timers with the next free id, the active Markdown view
    ([getActiveViewOfType(MarkdownView)]) and the text of every editor. *)
Record World : Type := mkWorld {
  settings : Settings;
  sessions : list SessionRecord;
  sessionActive : bool;
  sessionStartTime : Z;
  sessionDurationMs : Z;
  wordCountGoal : option Z;
  initialWordCount : Z;
  activeFile : option TFile;
  initialContent : jsstring;
  sessionInterval : option nat;
  idleWatchdogTimeout : option nat;
  lastActivityTime : Z;
  warningOverlay : option Overlay;
  statusBarInterval : option nat;
  now : Z;
  timers : gmap nat Timer;
  nextTimerId : nat;
  activeView : option MarkdownView;
  editors : gmap nat jsstring
}.

Definition set_settings (v : Settings) (w : World) : World :=
  mkWorld v (sessions w) (sessionActive w) (sessionStartTime w)
    (sessionDurationMs w) (wordCountGoal w) (initialWordCount w)
    (activeFile w) (initialContent w) (sessionInterval w)
    (idleWatchdogTimeout w) (lastActivityTime w) (warningOverlay w)
    (statusBarInterval w) (now w) (timers w) (nextTimerId w) (activeView w)
    (editors w).

Definition set_sessions (v : list SessionRecord) (w : World) : World :=
  mkWorld (settings w) v (sessionActive w) (sessionStartTime w)
    (sessionDurationMs w) (wordCountGoal w) (initialWordCount w)
    (activeFile w) (initialContent w) (sessionInterval w)
    (idleWatchdogTimeout w) (lastActivityTime w) (warningOverlay w)
    (statusBarInterval w) (now w) (timers w) (nextTimerId w) (activeView w)
    (editors w).

Definition set_sessionActive (v : bool) (w : World) : World :=
  mkWorld (settings w) (sessions w) v (sessionStartTime w)
    (sessionDurationMs w) (wordCountGoal w) (initialWordCount w)
    (activeFile w) (initialContent w) (sessionInterval w)
    (idleWatchdogTimeout w) (lastActivityTime w) (warningOverlay w)
    (statusBarInterval w) (now w) (timers w) (nextTimerId w) (activeView w)
    (editors w).

Definition set_sessionStartTime (v : Z) (w : World) : World :=
  mkWorld (settings w) (sessions w) (sessionActive w) v (sessionDurationMs w)
    (wordCountGoal w) (initialWordCount w) (activeFile w) (initialContent w)
    (sessionInterval w) (idleWatchdogTimeout w) (lastActivityTime w)
    (warningOverlay w) (statusBarInterval w) (now w) (timers w)
    (nextTimerId w) (activeView w) (editors w).

Definition set_sessionDurationMs (v : Z) (w : World) : World :=
  mkWorld (settings w) (sessions w) (sessionActive w) (sessionStartTime w) v
    (wordCountGoal w) (initialWordCount w) (activeFile w) (initialContent w)
    (sessionInterval w) (idleWatchdogTimeout w) (lastActivityTime w)
    (warningOverlay w) (statusBarInterval w) (now w) (timers w)
    (nextTimerId w) (activeView w) (editors w).

Definition set_wordCountGoal (v : option Z) (w : World) : World :=
  mkWorld (settings w) (sessions w) (sessionActive w) (sessionStartTime w)
    (sessionDurationMs w) v (initialWordCount w) (activeFile w)
    (initialContent w) (sessionInterval w) (idleWatchdogTimeout w)
    (lastActivityTime w) (warningOverlay w) (statusBarInterval w) (now w)
    (timers w) (nextTimerId w) (activeView w) (editors w).

Definition set_initialWordCount (v : Z) (w : World) : World :=
  mkWorld (settings w) (sessions w) (sessionActive w) (sessionStartTime w)
    (sessionDurationMs w) (wordCountGoal w) v (activeFile w)
    (initialContent w) (sessionInterval w) (idleWatchdogTimeout w)
    (lastActivityTime w) (warningOverlay w) (statusBarInterval w) (now w)
    (timers w) (nextTimerId w) (activeView w) (editors w).

Definition set_activeFile (v : option TFile) (w : World) : World :=
  mkWorld (settings w) (sessions w) (sessionActive w) (sessionStartTime w)
    (sessionDurationMs w) (wordCountGoal w) (initialWordCount w) v
    (initialContent w) (sessionInterval w) (idleWatchdogTimeout w)
    (lastActivityTime w) (warningOverlay w) (statusBarInterval w) (now w)
    (timers w) (nextTimerId w) (activeView w) (editors w).

Definition set_initialContent (v : jsstring) (w : World) : World :=
  mkWorld (settings w) (sessions w) (sessionActive w) (sessionStartTime w)
    (sessionDurationMs w) (wordCountGoal w) (initialWordCount w)
    (activeFile w) v (sessionInterval w) (idleWatchdogTimeout w)
    (lastActivityTime w) (warningOverlay w) (statusBarInterval w) (now w)
    (timers w) (nextTimerId w) (activeView w) (editors w).

Definition set_sessionInterval (v : option nat) (w : World) : World :=
  mkWorld (settings w) (sessions w) (sessionActive w) (sessionStartTime w)
    (sessionDurationMs w) (wordCountGoal w) (initialWordCount w)
    (activeFile w) (initialContent w) v (idleWatchdogTimeout w)
    (lastActivityTime w) (warningOverlay w) (statusBarInterval w) (now w)
    (timers w) (nextTimerId w) (activeView w) (editors w).

Definition set_idleWatchdogTimeout (v : option nat) (w : World) : World :=
  mkWorld (settings w) (sessions w) (sessionActive w) (sessionStartTime w)
    (sessionDurationMs w) (wordCountGoal w) (initialWordCount w)
    (activeFile w) (initialContent w) (sessionInterval w) v
    (lastActivityTime w) (warningOverlay w) (statusBarInterval w) (now w)
    (timers w) (nextTimerId w) (activeView w) (editors w).

Definition set_lastActivityTime (v : Z) (w : World) : World :=
  mkWorld (settings w) (sessions w) (sessionActive w) (sessionStartTime w)
    (sessionDurationMs w) (wordCountGoal w) (initialWordCount w)
    (activeFile w) (initialContent w) (sessionInterval w)
    (idleWatchdogTimeout w) v (warningOverlay w) (statusBarInterval w) (now w)
    (timers w) (nextTimerId w) (activeView w) (editors w).

Definition set_warningOverlay (v : option Overlay) (w : World) : World :=
  mkWorld (settings w) (sessions w) (sessionActive w) (sessionStartTime w)
    (sessionDurationMs w) (wordCountGoal w) (initialWordCount w)
    (activeFile w) (initialContent w) (sessionInterval w)
    (idleWatchdogTimeout w) (lastActivityTime w) v (statusBarInterval w)
    (now w) (timers w) (nextTimerId w) (activeView w) (editors w).

Definition set_statusBarInterval (v : option nat) (w : World) : World :=
  mkWorld (settings w) (sessions w) (sessionActive w) (sessionStartTime w)
    (sessionDurationMs w) (wordCountGoal w) (initialWordCount w)
    (activeFile w) (initialContent w) (sessionInterval w)
    (idleWatchdogTimeout w) (lastActivityTime w) (warningOverlay w) v (now w)
    (timers w) (nextTimerId w) (activeView w) (editors w).

Definition set_now (v : Z) (w : World) : World :=
  mkWorld (settings w) (sessions w) (sessionActive w) (sessionStartTime w)
    (sessionDurationMs w) (wordCountGoal w) (initialWordCount w)
    (activeFile w) (initialContent w) (sessionInterval w)
    (idleWatchdogTimeout w) (lastActivityTime w) (warningOverlay w)
    (statusBarInterval w) v (timers w) (nextTimerId w) (activeView w)
    (editors w).

Definition set_timers (v : gmap nat Timer) (w : World) : World :=
  mkWorld (settings w) (sessions w) (sessionActive w) (sessionStartTime w)
    (sessionDurationMs w) (wordCountGoal w) (initialWordCount w)
    (activeFile w) (initialContent w) (sessionInterval w)
    (idleWatchdogTimeout w) (lastActivityTime w) (warningOverlay w)
    (statusBarInterval w) (now w) v (nextTimerId w) (activeView w) (editors w).

Definition set_nextTimerId (v : nat) (w : World) : World :=
  mkWorld (settings w) (sessions w) (sessionActive w) (sessionStartTime w)
    (sessionDurationMs w) (wordCountGoal w) (initialWordCount w)
    (activeFile w) (initialContent w) (sessionInterval w)
    (idleWatchdogTimeout w) (lastActivityTime w) (warningOverlay w)
    (statusBarInterval w) (now w) (timers w) v (activeView w) (editors w).

Definition set_activeView (v : option MarkdownView) (w : World) : World :=
  mkWorld (settings w) (sessions w) (sessionActive w) (sessionStartTime w)
    (sessionDurationMs w) (wordCountGoal w) (initialWordCount w)
    (activeFile w) (initialContent w) (sessionInterval w)
    (idleWatchdogTimeout w) (lastActivityTime w) (warningOverlay w)
    (statusBarInterval w) (now w) (timers w) (nextTimerId w) v (editors w).

Definition set_editors (v : gmap nat jsstring) (w : World) : World :=
  mkWorld (settings w) (sessions w) (sessionActive w) (sessionStartTime w)
    (sessionDurationMs w) (wordCountGoal w) (initialWordCount w)
    (activeFile w) (initialContent w) (sessionInterval w)
    (idleWatchdogTimeout w) (lastActivityTime w) (warningOverlay w)
    (statusBarInterval w) (now w) (timers w) (nextTimerId w) (activeView w) v.

(** ** Host operations *)

Definition getValue (e : nat) (w : World) : jsstring :=
  default [] (editors w !! e).

Definition setValue (e : nat) (text : jsstring) (w : World) : World :=
  set_editors (<[e := text]> (editors w)) w.

(** [window.setInterval] and [window.setTimeout]: a fresh id, returned with
    the new world. *)
Definition setTimer (t : Timer) (w : World) : nat * World :=
  let id := nextTimerId w in
  (id, set_nextTimerId (S id) (set_timers (<[id := t]> (timers w)) w)).

Definition setInterval (cb : TimerCallback) (delay : Z) (w : World) : nat * World :=
  setTimer (mkTimer true delay cb) w.

Definition setTimeout (cb : TimerCallback) (delay : Z) (w : World) : nat * World :=
  setTimer (mkTimer false delay cb) w.

(** [window.clearInterval] and [window.clearTimeout]. *)
Definition clearTimer (id : nat) (w : World) : World :=
  set_timers (delete id (timers w)) w.

(** [view.file !== this.activeFile] is [negb (sameFile ...)]. *)
Definition sameFile (a b : option TFile) : bool :=
  match a, b with
  | Some x, Some y => Nat.eqb (file_id x) (file_id y)
  | None, None => true
  | _, _ => false
  end.

(** ** Session recorder *)

(** [recordSession]; saving the data and refreshing the stats view are left
    to the host. *)
Definition recordSession (words seconds : Z) (done : bool) (w : World) : World :=
  set_sessions
    (sessions w ++
       [ {| timestamp := now w; durationSeconds := seconds;
            wordsWritten := words; completed := done |} ])
    w.

(** ** Warning overlay *)

Definition createWarningOverlay (w : World) : World :=
  match warningOverlay w with
  | Some _ => w
  | None => set_warningOverlay (Some (mkOverlay None)) w
  end.

Definition removeWarningOverlay (w : World) : World :=
  match warningOverlay w with
  | Some _ => set_warningOverlay None w
  | None => w
  end.

(** [this.warningOverlay.style.backgroundColor = c], if there is an overlay. *)
Definition paintOverlay (c : option NumExpr) (w : World) : World :=
  match warningOverlay w with
  | Some _ => set_warningOverlay (Some (mkOverlay c)) w
  | None => w
  end.

(** ** Session state machine *)

(** [stopSession(completed)]. The argument is not read by the source. The
    status bar text is presentation and not modelled. *)
Definition stopSession (done : bool) (w : World) : World :=
  if negb (sessionActive w) then w
  else
    let w := set_sessionActive false w in
    let w := match sessionInterval w with
             | Some id => set_sessionInterval None (clearTimer id w)
             | None => w
             end in
    let w := match idleWatchdogTimeout w with
             | Some id => set_idleWatchdogTimeout None (clearTimer id w)
             | None => w
             end in
    let w := match statusBarInterval w with
             | Some id => set_statusBarInterval None (clearTimer id w)
             | None => w
             end in
    let w := removeWarningOverlay w in
    let w := set_activeFile None w in
    let w := set_initialContent [] w in
    let w := set_initialWordCount 0 w in
    let w := set_wordCountGoal None w in
    set_lastActivityTime 0 w.

(** [completeSession]. *)
Definition completeSession (w : World) : World :=
  if negb (sessionActive w) then w
  else
    match activeView w with
    | None => stopSession false w
    | Some view =>
        if negb (sameFile (file view) (activeFile w)) then stopSession false w
        else
          let words := countWords (getValue (editor view) w) in
          let seconds := (now w - sessionStartTime w) / 1000 in
          let w := recordSession words seconds true w in
          stopSession true w
    end.

(** [triggerPenalty]. [recover] is the answer the user gives to the
    [confirm] dialog, which is only asked in practice mode. *)
Definition triggerPenalty (recover : bool) (w : World) : World :=
  if negb (sessionActive w) then w
  else
    match activeView w with
    | None => w
    | Some view =>
        if negb (sameFile (file view) (activeFile w)) then w
        else
          let currentContent := getValue (editor view) w in
          let words := countWords currentContent in
          let seconds := (now w - sessionStartTime w) / 1000 in
          let savedInitialContent := initialContent w in
          let practice := practiceMode (settings w) in
          let newContent := applyPenalty (penaltyType (settings w)) currentContent in
          let w := setValue (editor view) newContent w in
          let w := recordSession words seconds false w in
          let w := stopSession false w in
          if practice && recover
          then setValue (editor view) savedInitialContent w
          else w
    end.

(** ** Idle watchdog *)

(** Lines 391-393: [progress = 1 - remaining / warningThreshold] and
    [easedProgress = 1 - Math.pow(1 - progress, 3)]. *)
Definition easedProgress (remaining warningThreshold : Z) : NumExpr :=
  let progress :=
    NumSub (NumInt 1) (NumDiv (NumInt remaining) (NumInt warningThreshold)) in
  NumSub (NumInt 1) (NumPow (NumSub (NumInt 1) progress) 3).

(** Line 395: [opacity = 0.05 + easedProgress * 0.55]. *)
Definition opacityOf (eased : NumExpr) : NumExpr :=
  NumAdd (NumDecimal (5 # 100)) (NumMul eased (NumDecimal (55 # 100))).

(** The closure [warningCheck] of [startWarningInterval]; [id] is its own
    timer id and [warningThreshold] the value captured when it was created. *)
Definition warningCheck (id : nat) (warningThreshold : Z) (w : World) : World :=
  if negb (sessionActive w) then clearTimer id w
  else
    let idleTime := now w - lastActivityTime w in
    let remaining := idleTimeoutSeconds (settings w) * 1000 - idleTime in
    if remaining <=? 0 then paintOverlay None (clearTimer id w)
    else
      match warningOverlay w with
      | Some _ =>
          if remaining <=? warningThreshold
          then paintOverlay (Some (opacityOf (easedProgress remaining warningThreshold))) w
          else paintOverlay None w
      | None => w
      end.

(** [startWarningInterval]. *)
Definition startWarningInterval (w : World) : World :=
  let checkInterval := 50 in
  let warningThreshold := warningThresholdSeconds (settings w) * 1000 in
  snd (setInterval (WarningCheck warningThreshold) checkInterval w).

(** [resetIdleWatchdog]. *)
Definition resetIdleWatchdog (w : World) : World :=
  let w := match idleWatchdogTimeout w with
           | Some id => set_idleWatchdogTimeout None (clearTimer id w)
           | None => w
           end in
  let w := set_lastActivityTime (now w) w in
  let w := paintOverlay None w in
  let '(id, w) := setTimeout IdleTimeout (idleTimeoutSeconds (settings w) * 1000) w in
  let w := set_idleWatchdogTimeout (Some id) w in
  startWarningInterval w.

(** ** Starting a session *)

(** The closure handed to [setInterval] by [beginSession] (lines 298-316). *)
Definition goalCheck (ed : nat) (w : World) : World :=
  match wordCountGoal w with
  | Some goal =>
      let currentWords := countWords (getValue ed w) in
      if goal <=? currentWords - initialWordCount w
      then completeSession w
      else w
  | None =>
      let elapsed := now w - sessionStartTime w in
      if sessionDurationMs w <=? elapsed
      then completeSession w
      else w
  end.

(** [config.durationMinutes || 5]. *)
Definition durationOrDefault (d : option Z) : Z :=
  match d with
  | Some m => if m =? 0 then 5 else m
  | None => 5
  end.

(** [beginSession(file, editor, config)].  The duration is the product of
    the code computed on integers; the doubles of the code give the same
    for products up to [2 ^ 53], and theorems that state the product do so
    within that bound. *)
Definition beginSession (f : TFile) (ed : nat) (config : SessionConfig) (w : World) : World :=
  let w := set_sessionActive true w in
  let w := set_activeFile (Some f) w in
  let w := set_initialContent (getValue ed w) w in
  let w := set_initialWordCount (countWords (initialContent w)) w in
  let w := set_sessionStartTime (now w) w in
  let w := match configWordCountGoal config with
           | Some goal => set_sessionDurationMs 0 (set_wordCountGoal (Some goal) w)
           | None =>
               set_sessionDurationMs
                 (durationOrDefault (durationMinutes config) * 60 * 1000)
                 (set_wordCountGoal None w)
           end in
  let '(intervalId, w) := setInterval (GoalCheck ed) 1000 w in
  let w := set_sessionInterval (Some intervalId) w in
  let w := resetIdleWatchdog w in
  createWarningOverlay w.

(** [startSession] up to the point where it opens the configuration dialog:
    the file and editor the dialog will start a session on, if any. *)
Definition startSession (w : World) : option (TFile * nat) :=
  if sessionActive w then None
  else
    match activeView w with
    | None => None
    | Some view =>
        match file view with
        | None => None
        | Some f => Some (f, editor view)
        end
    end.

(** ** Event handlers registered by [onload] *)

(** The ["editor-change"] handler. *)
Definition onEditorChange (w : World) : World :=
  if sessionActive w then resetIdleWatchdog w else w.

(** The ["active-leaf-change"] handler. *)
Definition onActiveLeafChange (leaf : option View) (w : World) : World :=
  if sessionActive w then
    match leaf with
    | Some (ViewMarkdown view) =>
        match activeFile w, file view with
        | Some target, Some currentFile =>
            if negb (bool_decide (path currentFile = path target))
            then stopSession false w
            else w
        | _, _ => w
        end
    | _ => w
    end
  else w.

(** The command ["stop-dangerous-writing"], when it is run. *)
Definition stopCommand (w : World) : World :=
  if sessionActive w then stopSession true w else w.

(** [onunload]; [cleanup] removes the overlay (and display elements that are
    not modelled). *)
Definition onunload (w : World) : World :=
  let w := if sessionActive w then stopSession false w else w in
  removeWarningOverlay w.

(** ** The event loop *)

(** What can happen between two callbacks. A timer may fire whenever it is
    pending: its delay is kept in the table but the scheduler is not
    constrained by it. [EvClock] lets time pass; a system time that is set,
    possibly back, is the [HostSetClock] of the host events. *)
Inductive Event : Type :=
  | EvEdit (ed : nat) (text : jsstring)
  | EvActiveLeafChange (leaf : option View)
  | EvTimer (id : nat) (recover : bool)
  | EvClock (dt : N)
  | EvStopCommand
  | EvUnload
  | EvBegin (f : TFile) (ed : nat) (config : SessionConfig)
  | EvSettings (s : Settings).

Definition runCallback (id : nat) (recover : bool) (cb : TimerCallback) (w : World) : World :=
  match cb with
  | GoalCheck ed => goalCheck ed w
  | IdleTimeout => triggerPenalty recover w
  | WarningCheck warningThreshold => warningCheck id warningThreshold w
  end.

Definition fireTimer (id : nat) (recover : bool) (w : World) : World :=
  match timers w !! id with
  | None => w
  | Some t =>
      let w := if repeating t then w else clearTimer id w in
      runCallback id recover (callback t) w
  end.

Definition viewOfLeaf (leaf : option View) : option MarkdownView :=
  match leaf with
  | Some (ViewMarkdown view) => Some view
  | _ => None
  end.

Definition step (e : Event) (w : World) : World :=
  match e with
  | EvEdit ed text => onEditorChange (setValue ed text w)
  | EvActiveLeafChange leaf =>
      onActiveLeafChange leaf (set_activeView (viewOfLeaf leaf) w)
  | EvTimer id recover => fireTimer id recover w
  | EvClock dt => set_now (now w + Z.of_N dt) w
  | EvStopCommand => stopCommand w
  | EvUnload => onunload w
  | EvBegin f ed config => beginSession f ed config w
  | EvSettings s => set_settings s w
  end.

Definition run (evs : list Event) (w : World) : World :=
  fold_left (fun w e => step e w) evs w.

Definition isBegin (e : Event) : bool :=
  match e with
  | EvBegin _ _ _ => true
  | _ => false
  end.

(** The number of records of completed sessions in the history. *)
Definition completedCount (w : World) : nat :=
  List.length (List.filter completed (sessions w)).

(** The plugin as its field initialisers leave it, in a host with the given
    settings, clock, active view and editors: the history is empty until
    [loadSessions] puts the saved one in its place. *)
Definition initialWorld (s : Settings) (t : Z) (view : option MarkdownView)
    (eds : gmap nat jsstring) : World :=
  {| settings := s; sessions := []; sessionActive := false;
     sessionStartTime := 0; sessionDurationMs := 0; wordCountGoal := None;
     initialWordCount := 0; activeFile := None; initialContent := [];
     sessionInterval := None; idleWatchdogTimeout := None;
     lastActivityTime := 0; warningOverlay := None; statusBarInterval := None;
     now := t; timers := ∅; nextTimerId := 1; activeView := view;
     editors := eds |}.

(** [DEFAULT_SETTINGS]. *)
Definition DEFAULT_SETTINGS : Settings :=
  {| idleTimeoutSeconds := 5; practiceMode := true;
     warningThresholdSeconds := 3; penaltyType := PenaltyAll |}.

(** The target of the session is not the file of the active Markdown view
    (or there is none): the test at the head of [completeSession] and
    [triggerPenalty]. *)
Definition unreachable (w : World) : Prop :=
  match activeView w with
  | None => True
  | Some view => sameFile (file view) (activeFile w) = false
  end.

(** ** A scenario

    A note that already holds three words, open in the active view; a second
    note; a session with a goal of two words begun on the first with the
    default settings. Its goal check gets timer id 1, its idle timeout id 2
    and its warning poll id 3. *)
Definition note : TFile := mkTFile 1 (str "note.md").

Definition other : TFile := mkTFile 2 (str "other.md").

Definition noteView : MarkdownView := mkMarkdownView (Some note) 0.

Definition otherView : MarkdownView := mkMarkdownView (Some other) 1.

Definition scenarioIdle : World :=
  initialWorld DEFAULT_SETTINGS 1000 (Some noteView) {[ 0%nat := str "a b c" ]}.

Definition scenarioStart : World :=
  beginSession note 0 (mkSessionConfig None (Some 2)) scenarioIdle.

(** ** Goal conditions *)

(** The test of the goal check for the editor [ed]: in word-count mode the
    words gained since the start reach the goal, in duration mode the time
    elapsed since the start reaches the duration. *)
Definition goalReached (ed : nat) (w : World) : Prop :=
  match wordCountGoal w with
  | Some goal => goal <= countWords (getValue ed w) - initialWordCount w
  | None => sessionDurationMs w <= now w - sessionStartTime w
  end.

(** The remaining idle time the warning poll computes (lines 378-379). *)
Definition remainingIdle (w : World) : Z :=
  idleTimeoutSeconds (settings w) * 1000 - (now w - lastActivityTime w).

(** The events that can end an active session, [reached ed] being the test
    of the goal check for editor [ed]: a timer that runs the idle penalty, a
    timer that runs the goal check when the goal is reached, a change to a
    Markdown view on another path, the stop command and the unloading of
    the plugin. Typing, the clock and the settings are not among them. *)
Definition sessionExit (reached : nat -> Prop) (e : Event) (w : World) : Prop :=
  match e with
  | EvTimer id _ =>
      exists t, timers w !! id = Some t
        /\ (callback t = IdleTimeout
            \/ exists ed, callback t = GoalCheck ed /\ reached ed)
  | EvActiveLeafChange leaf =>
      exists view target currentFile,
        leaf = Some (ViewMarkdown view) /\ activeFile w = Some target
        /\ file view = Some currentFile /\ path currentFile <> path target
  | EvStopCommand | EvUnload => True
  | _ => False
  end.

(** The same for a session with the word goal [goal]: the goal check ends it
    only when the words gained reach the goal. *)
Definition wordGoalExit (goal : Z) (e : Event) (w : World) : Prop :=
  sessionExit
    (fun ed => goal <= countWords (getValue ed w) - initialWordCount w) e w.

Definition noBegin (evs : list Event) : bool :=
  forallb (fun e => negb (isBegin e)) evs.

(** ** Relations between the worlds before and after a callback *)

(** The callback left the session as it was: same status, history, goal
    and duration. *)
Definition keepsSession (w w' : World) : Prop :=
  sessionActive w' = sessionActive w /\ sessions w' = sessions w
  /\ wordCountGoal w' = wordCountGoal w
  /\ sessionDurationMs w' = sessionDurationMs w.

(** The callback ended an active session, with at most one new record. *)
Definition endsSession (w w' : World) : Prop :=
  sessionActive w = true /\ sessionActive w' = false
  /\ (sessions w' = sessions w \/ exists r, sessions w' = sessions w ++ [r]).

(** ** Session configuration dialog ([modal]) *)

(** The text of the input field [inputEl.value]: [Rendered n] is the text
    [String(n)] written by the dialog, [Typed parsed] a text typed by the
    user, of which the model keeps what [parseInt] makes of it ([None] for
    [NaN]). *)
Inductive InputValue : Type :=
  | Rendered (n : Z)
  | Typed (parsed : option Z).

(** The fields of [SessionConfigModal] that the Start button reads, and the
    text of the input field, which it does not read. *)
Record ModalState : Type := mkModalState {
  modalDurationMinutes : Z;
  modalWordCountGoal : Z;
  useWordCount : bool;
  inputValue : InputValue
}.

(** [CONFIG[mode].presets] for the mode on display. *)
Definition presets (m : ModalState) : list Z :=
  if useWordCount m then [100; 250; 500; 750; 1000] else [5; 10; 15; 20; 30].

(** [CONFIG[mode].get()]: the stored value of the mode on display, with the
    fallbacks [durationMinutes || 5] and
    [wordCountGoal > 0 ? wordCountGoal : 500]. *)
Definition configGet (m : ModalState) : Z :=
  if useWordCount m
  then (if 0 <? modalWordCountGoal m then modalWordCountGoal m else 500)
  else (if modalDurationMinutes m =? 0 then 5 else modalDurationMinutes m).

(** The stored value of the mode on display: [this.wordCountGoal] or
    [this.durationMinutes]. *)
Definition storedValue (m : ModalState) : Z :=
  if useWordCount m then modalWordCountGoal m else modalDurationMinutes m.

(** [CONFIG[mode].set(n)]; the input field is not touched. *)
Definition setModalValue (n : Z) (m : ModalState) : ModalState :=
  if useWordCount m
  then mkModalState (modalDurationMinutes m) n true (inputValue m)
  else mkModalState n (modalWordCountGoal m) false (inputValue m).

(** The input field gets a new text. *)
Definition setInputValue (v : InputValue) (m : ModalState) : ModalState :=
  mkModalState (modalDurationMinutes m) (modalWordCountGoal m) (useWordCount m) v.

(** [setMode(words)]: [useWordCount = words], then [renderPicker], which
    builds the input field anew with [value: String(CONFIG[mode].get())]. *)
Definition setMode (words : bool) (m : ModalState) : ModalState :=
  let m' := mkModalState (modalDurationMinutes m) (modalWordCountGoal m) words
              (inputValue m) in
  setInputValue (Rendered (configGet m')) m'.

(** The constructor ([useWordCount = defaultWordCount > 0]) and [onOpen],
    which ends with [setMode(this.useWordCount)]. *)
Definition openModal (defaultDuration defaultWordCount : Z) : ModalState :=
  setMode (0 <? defaultWordCount)
    (mkModalState defaultDuration defaultWordCount (0 <? defaultWordCount)
       (Rendered 0)).

(** What the user can do in the dialog before pressing Start: the two
    segment buttons, a preset chip (by position), and typing in the input
    field, where [parsed] is the result of [parseInt] ([None] for [NaN]). *)
Inductive ModalAction : Type :=
  | ClickMinutes
  | ClickWords
  | ClickChip (i : nat)
  | TypeInput (parsed : option Z).

(** The chip handler sets the stored value and writes the preset into the
    field; the input handler leaves the typed text in the field and stores
    its number only if [!isNaN(num) && num > 0]. *)
Definition modalStep (a : ModalAction) (m : ModalState) : ModalState :=
  match a with
  | ClickMinutes => setMode false m
  | ClickWords => setMode true m
  | ClickChip i =>
      match nth_error (presets m) i with
      | Some preset => setInputValue (Rendered preset) (setModalValue preset m)
      | None => m
      end
  | TypeInput parsed =>
      let m' := setInputValue (Typed parsed) m in
      match parsed with
      | Some num => if 0 <? num then setModalValue num m' else m'
      | None => m'
      end
  end.

(** [startBtn.onclick]: the configuration handed to [onSubmit], or [None]
    when the dialog shows a notice and stays open. *)
Definition submit (m : ModalState) : option SessionConfig :=
  if useWordCount m && (modalWordCountGoal m <=? 0) then None
  else if negb (useWordCount m) && (modalDurationMinutes m <=? 0) then None
  else Some {| durationMinutes :=
                 if useWordCount m then None else Some (modalDurationMinutes m);
               configWordCountGoal :=
                 if useWordCount m then Some (modalWordCountGoal m) else None |}.

(** ** Settings tab ([settings]) *)

(** [parseInt(value) || d]: [NaN] and 0 give the default. *)
Definition parsedOr (parsed : option Z) (d : Z) : Z :=
  match parsed with
  | Some n => if n =? 0 then d else n
  | None => d
  end.

(** The [onChange] handler of the idle timeout field. *)
Definition onIdleTimeoutChange (parsed : option Z) (s : Settings) : Settings :=
  let num := parsedOr parsed 5 in
  if (0 <? num) && (num <=? 300) then
    let s := mkSettings num (practiceMode s) (warningThresholdSeconds s) (penaltyType s) in
    if num <? warningThresholdSeconds s
    then mkSettings (idleTimeoutSeconds s) (practiceMode s) num (penaltyType s)
    else s
  else s.

(** The [onChange] handler of the warning threshold field. *)
Definition onWarningThresholdChange (parsed : option Z) (s : Settings) : Settings :=
  let num := parsedOr parsed 3 in
  let max := idleTimeoutSeconds s in
  if (0 <? num) && (num <=? max)
  then mkSettings (idleTimeoutSeconds s) (practiceMode s) num (penaltyType s)
  else if max <? num
  then mkSettings (idleTimeoutSeconds s) (practiceMode s) max (penaltyType s)
  else s.

(** The ranges the two handlers enforce. *)
Definition validSettings (s : Settings) : Prop :=
  0 < warningThresholdSeconds s <= idleTimeoutSeconds s
  /\ idleTimeoutSeconds s <= 300.

(** ** Status bar *)

(** The first part of the status text: [written/goal words], [Goal: goal
    words], or the minutes and seconds left. *)
Inductive StatusProgress : Type :=
  | WordsOf (written goal : Z)
  | GoalOnly (goal : Z)
  | TimeLeft (minutes seconds : Z).

(** What [updateStatusBar] shows: nothing, or a progress part, the idle
    seconds left and whether the element gets the class [warning]. The
    numbers only; their rendering into text is left to the host. *)
Inductive StatusBar : Type :=
  | StatusEmpty
  | StatusActive (progress : StatusProgress) (idleRemaining : Z) (warning : bool).

(** [updateStatusBar], for a status bar element that exists. *)
Definition updateStatusBar (w : World) : StatusBar :=
  if negb (sessionActive w) then StatusEmpty
  else
    let idleTime := now w - lastActivityTime w in
    let idleSeconds := idleTime / 1000 in
    let idleRemaining := Z.max 0 (idleTimeoutSeconds (settings w) - idleSeconds) in
    let progress :=
      match wordCountGoal w with
      | Some goal =>
          match activeView w with
          | Some view =>
              if sameFile (file view) (activeFile w)
              then WordsOf (countWords (getValue (editor view) w) - initialWordCount w) goal
              else GoalOnly goal
          | None => GoalOnly goal
          end
      | None =>
          let elapsed := now w - sessionStartTime w in
          let remaining := Z.max 0 (sessionDurationMs w - elapsed) in
          TimeLeft (remaining / 60000) (Z.rem remaining 60000 / 1000)
      end in
    StatusActive progress idleRemaining
      (idleRemaining <=? warningThresholdSeconds (settings w)).

(** The numbers the status bar and the warning poll compute with are below
    [2 ^ 51] in absolute value; differences, quotients and remainders of
    such integers are computed by doubles as the model computes them. *)
Definition safeNumbers (w : World) : Prop :=
  Forall (fun z => Z.abs z < 2 ^ 51)
    [now w; lastActivityTime w; sessionStartTime w; sessionDurationMs w;
     idleTimeoutSeconds (settings w) * 1000;
     warningThresholdSeconds (settings w) * 1000].

(** ** Statistics view ([stats]) *)

Definition day : Z := 24 * 60 * 60 * 1000.

Definition week : Z := 7 * day.

Definition month : Z := 30 * day.

(** [this.sessions.filter((s) => s.timestamp >= period.start)]. *)
Definition periodSessions (start : Z) (ss : list SessionRecord) : list SessionRecord :=
  List.filter (fun s => start <=? timestamp s) ss.

(** The starts of the four periods of [render], [t] being [Date.now()]:
    Today, Past Week, Past Month, All Time. *)
Definition periodStarts (t : Z) : list Z := [t - day; t - week; t - month; 0].

(** [this.sessions.slice(-10).reverse()]. *)
Definition recentSessions (ss : list SessionRecord) : list SessionRecord :=
  rev (skipn (List.length ss - 10) ss).

(** The integer figures of [renderPeriodStats]. *)
Definition totalSessions (ss : list SessionRecord) : nat := List.length ss.

Definition completedSessions (ss : list SessionRecord) : nat :=
  List.length (List.filter completed ss).

Definition totalWords (ss : list SessionRecord) : Z :=
  fold_left (fun sum s => sum + wordsWritten s) ss 0.

Definition totalTime (ss : list SessionRecord) : Z :=
  fold_left (fun sum s => sum + durationSeconds s) ss 0.

(** ** Invariants of the plugin *)

(** Sessions are only begun while none is active, as [startSession] checks
    before it opens the dialog. *)
Fixpoint startsWhenIdle (evs : list Event) (w : World) : bool :=
  match evs with
  | [] => true
  | e :: evs' =>
      (if isBegin e then negb (sessionActive w) else true)
      && startsWhenIdle evs' (step e w)
  end.

(** The timer table and the handles stored in the plugin agree: ids are
    handed out in increasing order; a pending goal check or idle timeout is
    the one whose handle is stored; a stored handle points to nothing or to
    a timer of its kind; an active session has its goal check pending; an
    idle plugin stores no handle. *)
Definition timersOk (w : World) : Prop :=
  (forall id, (nextTimerId w <= id)%nat -> timers w !! id = None)
  /\ (forall id t ed, timers w !! id = Some t -> callback t = GoalCheck ed ->
        sessionInterval w = Some id)
  /\ (forall id t, timers w !! id = Some t -> callback t = IdleTimeout ->
        idleWatchdogTimeout w = Some id)
  /\ (forall id t, sessionInterval w = Some id -> timers w !! id = Some t ->
        exists ed, t = mkTimer true 1000 (GoalCheck ed))
  /\ (forall id t, idleWatchdogTimeout w = Some id -> timers w !! id = Some t ->
        repeating t = false /\ callback t = IdleTimeout)
  /\ (sessionActive w = true ->
        exists id ed, sessionInterval w = Some id
          /\ timers w !! id = Some (mkTimer true 1000 (GoalCheck ed)))
  /\ (sessionActive w = false ->
        sessionInterval w = None /\ idleWatchdogTimeout w = None)
  /\ statusBarInterval w = None.

(** The history and the clock agree: the session began in the past, and
    every record was stamped in the past, not before 0, with a duration and
    a word count that are not negative. *)
Definition recordOk (t : Z) (r : SessionRecord) : Prop :=
  0 <= timestamp r <= t /\ 0 <= durationSeconds r /\ 0 <= wordsWritten r.

Definition historyOk (w : World) : Prop :=
  0 <= sessionStartTime w <= now w
  /\ Forall (recordOk (now w)) (sessions w)
  /\ Sorted Z.le (List.map timestamp (sessions w)).

(** What a session keeps from its start to its end. *)
Definition keepsTarget (w w' : World) : Prop :=
  activeFile w' = activeFile w /\ initialContent w' = initialContent w
  /\ initialWordCount w' = initialWordCount w
  /\ sessionStartTime w' = sessionStartTime w.

(** What no callback of the plugin changes except on purpose: the clock,
    the texts, the active view, the settings and the start of the session. *)
Definition keepsHost (w w' : World) : Prop :=
  now w' = now w /\ editors w' = editors w /\ activeView w' = activeView w
  /\ settings w' = settings w /\ sessionStartTime w' = sessionStartTime w.


(** ** The saved history and the wall clock *)

(** [loadSettings], line 165: [this.sessions = data?.sessions || []], where
    [saved] is the history found in the data of the plugin, if any. *)
Definition loadSessions (saved : option (list SessionRecord)) (w : World) : World :=
  set_sessions (default [] saved) w.

(** What happens in the host: an event of the plugin, or the system time is
    set, after which [Date.now()] is [t]; [t] may lie before the old time. *)
Inductive HostEvent : Type :=
  | HostPlugin (e : Event)
  | HostSetClock (t : Z).

Definition hostStep (h : HostEvent) (w : World) : World :=
  match h with
  | HostPlugin e => step e w
  | HostSetClock t => set_now t w
  end.

Definition hostRun (hs : list HostEvent) (w : World) : World :=
  fold_left (fun w h => hostStep h w) hs w.

(** The system time is never set back. *)
Fixpoint clockNeverBack (hs : list HostEvent) (w : World) : bool :=
  match hs with
  | [] => true
  | h :: hs' =>
      match h with
      | HostPlugin _ => true
      | HostSetClock t => now w <=? t
      end && clockNeverBack hs' (hostStep h w)
  end.

(** ** Proof automation *)

(** Splits a world into its fields and the stored timer handles and the
    overlay into their cases, so that [stopSession] computes. *)
Ltac world_cases w :=
  destruct w as [? ? ? ? ? ? ? ? ? [?|] [?|] ? [?|] [?|] ? ? ? ? ?];
  simpl in *.

Ltac unfold_stop :=
  unfold stopSession, removeWarningOverlay, clearTimer in *.

(** Splits [timersOk] into its eight parts without introducing anything. *)
Ltac split_timersOk :=
  unfold timersOk;
  refine (conj _ (conj _ (conj _ (conj _ (conj _ (conj _ (conj _ _))))))).

(** Carries a property [H] of a world over to a world that agrees with it
    on the fields the property reads, by the lemma [lem] that says so. *)
Ltac same_by lem H :=
  match type of H with
  | ?P ?x => apply (lem x); [reflexivity..|exact H]
  end.

(** * Word counter: properties *)

Section WordCounter.

Local Open Scope nat_scope.

Lemma splitWs_not_nil b s : splitWs b s <> [].
Proof.
  revert b; induction s as [|c s IH]; intros b; simpl; [discriminate|].
  destruct (isWhiteSpace c); [destruct b; [apply IH | discriminate]|].
  specialize (IH false). destruct (splitWs false s); [contradiction | discriminate].
Qed.

(** Counting the non-empty pieces of the split counts the runs. *)
Lemma splitWs_count s :
  List.length (List.filter nonEmpty (splitWs true s)) = nonWhitespaceRuns false s
  /\ List.length (List.filter nonEmpty (splitWs false s)) = nonWhitespaceRuns false s
  /\ List.length (List.filter nonEmpty (List.tl (splitWs false s))) = nonWhitespaceRuns true s.
Proof.
  induction s as [|c s (IHt & IHf & IHtl)]; simpl; [auto|].
  destruct (isWhiteSpace c); simpl; [auto|].
  pose proof (splitWs_not_nil false s) as Hne.
  destruct (splitWs false s) as [|p ps]; [contradiction|].
  simpl in *. rewrite IHtl. auto.
Qed.

Lemma trimStart_split s :
  exists l, s = l ++ trimStart s /\ forallb isWhiteSpace l = true.
Proof.
  induction s as [|c s (l & Hl & Hws)]; simpl.
  - exists []. auto.
  - destruct (isWhiteSpace c) eqn:Hc.
    + exists (c :: l). simpl. rewrite Hc, Hws. split; [congruence | reflexivity].
    + exists []. auto.
Qed.

Lemma trimEnd_split s :
  exists r, s = trimEnd s ++ r /\ forallb isWhiteSpace r = true.
Proof.
  destruct (trimStart_split (rev s)) as (l & Hl & Hws).
  exists (rev l). split.
  - unfold trimEnd. rewrite <- rev_app_distr, <- Hl. symmetry. apply rev_involutive.
  - rewrite forallb_forall in *. intros x Hx. apply Hws. now apply in_rev.
Qed.

Lemma runs_ws_prefix l s :
  forallb isWhiteSpace l = true ->
  nonWhitespaceRuns false (l ++ s) = nonWhitespaceRuns false s.
Proof.
  induction l as [|c l IH]; simpl; [reflexivity|].
  intros H. apply andb_prop in H as [Hc Hl]. rewrite Hc. auto.
Qed.

Lemma runs_all_ws r b :
  forallb isWhiteSpace r = true -> nonWhitespaceRuns b r = 0.
Proof.
  revert b. induction r as [|c r IH]; intros b Hr; simpl in *; [reflexivity|].
  apply andb_prop in Hr as [Hc Hr]. rewrite Hc. now apply IH.
Qed.

Lemma runs_ws_suffix r s b :
  forallb isWhiteSpace r = true ->
  nonWhitespaceRuns b (s ++ r) = nonWhitespaceRuns b s.
Proof.
  intros Hr. revert b. induction s as [|c s IH]; intros b; simpl.
  - now apply runs_all_ws.
  - destruct (isWhiteSpace c); rewrite IH; reflexivity.
Qed.

Lemma runs_trim s : nonWhitespaceRuns false (trim s) = nonWhitespaceRuns false s.
Proof.
  unfold trim.
  destruct (trimStart_split s) as (l & Hl & Hlws).
  destruct (trimEnd_split (trimStart s)) as (r & Hr & Hrws).
  rewrite Hl at 2. rewrite runs_ws_prefix by assumption.
  rewrite Hr at 2. now rewrite runs_ws_suffix.
Qed.

Lemma countWords_runs text :
  countWords text = Z.of_nat (nonWhitespaceRuns false text).
Proof.
  unfold countWords. f_equal.
  destruct (splitWs_count (trim text)) as (_ & H & _).
  rewrite H. apply runs_trim.
Qed.

End WordCounter.

(** C8: [countWords] returns the number of maximal runs of characters that
    are not white space; it is 0 on the empty text and on text made of white
    space only, 2 on ["  a   b  "], and it does not change when white space
    is added in front of or behind the text (nor when [trim] removes it). *)
Theorem countWords_counts_runs :
  (forall text, countWords text = Z.of_nat (nonWhitespaceRuns false text))
  /\ countWords [] = 0
  /\ countWords (str "  a   b  ") = 2
  /\ (forall text, forallb isWhiteSpace text = true -> countWords text = 0)
  /\ (forall l text r,
        forallb isWhiteSpace l = true -> forallb isWhiteSpace r = true ->
        countWords (l ++ text ++ r) = countWords text)
  /\ (forall text, countWords (trim text) = countWords text).
Proof.
  split; [exact countWords_runs|].
  split; [reflexivity|]. split; [reflexivity|].
  split; [|split].
  - intros text H. rewrite countWords_runs.
    rewrite <- (app_nil_l text), runs_ws_suffix by assumption. reflexivity.
  - intros l text r Hl Hr. rewrite !countWords_runs.
    rewrite runs_ws_prefix, runs_ws_suffix by assumption. reflexivity.
  - intros text. rewrite !countWords_runs. now rewrite runs_trim.
Qed.

Lemma countWords_counts_runs_witness :
  countWords (str "   ") = 0
  /\ countWords (str " " ++ str "one two" ++ str "  ") = countWords (str "one two").
Proof.
  destruct countWords_counts_runs as (_ & _ & _ & Hws & Hpad & _).
  split.
  - apply (Hws (str "   ")). reflexivity.
  - apply (Hpad (str " ") (str "one two") (str "  ")); reflexivity.
Defined.

(** * Penalty engine: properties *)

Section PenaltyEngine.

Local Open Scope nat_scope.

Lemma trimStart_length s : List.length (trimStart s) <= List.length s.
Proof.
  induction s as [|c s IH]; simpl; [lia|].
  destruct (isWhiteSpace c); simpl; lia.
Qed.

Lemma trimEnd_length s : List.length (trimEnd s) <= List.length s.
Proof.
  unfold trimEnd. rewrite length_rev.
  etransitivity; [apply trimStart_length|]. now rewrite length_rev.
Qed.

(** A match of the sentence regex is a non-empty suffix of the input. *)
Lemma matchLastSentence_suffix s m :
  matchLastSentence s = Some m ->
  exists p c q, s = p ++ m /\ m = c :: q /\ isTerminal c = true
                /\ forallb (fun d => negb (isTerminal d)) q = true.
Proof.
  induction s as [|c s IH]; simpl; [discriminate|].
  destruct (isTerminal c && forallb (fun d => negb (isTerminal d)) s) eqn:E.
  - intros [= <-]. apply andb_prop in E as [Hc Hq].
    exists [], c, s. auto.
  - intros H. destruct (IH H) as (p & c' & q & -> & Hm & Hc & Hq).
    exists (c :: p), c', q. auto.
Qed.

(** The match starts at the last terminal mark of the input. *)
Lemma matchLastSentence_last_mark p c q :
  isTerminal c = true ->
  forallb (fun d => negb (isTerminal d)) q = true ->
  matchLastSentence (p ++ c :: q) = Some (c :: q).
Proof.
  intros Hc Hq. induction p as [|a p IH]; simpl.
  - now rewrite Hc, Hq.
  - rewrite IH.
    replace (forallb (fun d => negb (isTerminal d)) (p ++ c :: q)) with false;
      [now rewrite andb_false_r|].
    rewrite forallb_app. simpl. rewrite Hc. simpl. now rewrite andb_false_r.
Qed.

(** In sentence mode everything from the last terminal mark of the trimmed
    text on is removed, the mark included. *)
Lemma applyPenalty_sentence_last_mark content p c q :
  trimEnd content = p ++ c :: q ->
  isTerminal c = true ->
  forallb (fun d => negb (isTerminal d)) q = true ->
  applyPenalty PenaltySentence content = p.
Proof.
  intros Ht Hc Hq. unfold applyPenalty. rewrite Ht.
  rewrite matchLastSentence_last_mark by assumption.
  unfold slice0. rewrite length_app.
  replace (List.length p + List.length (c :: q) - List.length (c :: q))
    with (List.length p + 0) by lia.
  rewrite firstn_app_2. simpl. apply app_nil_r.
Qed.

Lemma join_consHead sep c ps :
  ps <> [] -> join sep (consHead c ps) = c :: join sep ps.
Proof.
  destruct ps as [|p [|p' ps]]; [contradiction | reflexivity | reflexivity].
Qed.

Lemma join_cons sep p ps :
  ps <> [] -> join sep (p :: ps) = p ++ sep ++ join sep ps.
Proof. destruct ps; [contradiction | reflexivity]. Qed.

Lemma splitLines_not_nil s : splitLines s <> [].
Proof.
  induction s as [|c s IH]; simpl; [discriminate|].
  destruct (isNewline c); [discriminate|].
  destruct (splitLines s); [contradiction | discriminate].
Qed.

Lemma splitParagraphs_not_nil b s : splitParagraphs b s <> [].
Proof.
  revert b. induction s as [|c s IH]; intros b; simpl; [discriminate|].
  assert (Hc : consHead c (splitParagraphs false s) <> []).
  { specialize (IH false). destruct (splitParagraphs false s);
      [contradiction | discriminate]. }
  destruct (isNewline c); [|exact Hc].
  destruct b; [apply IH|].
  destruct s as [|c2 s']; [exact Hc|].
  destruct (isNewline c2); [discriminate | exact Hc].
Qed.

(** Joining the lines gives the text back. *)
Lemma join_splitLines s : join [10%N] (splitLines s) = s.
Proof.
  induction s as [|c s IH]; simpl; [reflexivity|].
  destruct (isNewline c) eqn:Hc.
  - rewrite join_cons by apply splitLines_not_nil. simpl.
    apply N.eqb_eq in Hc. congruence.
  - rewrite join_consHead by apply splitLines_not_nil. congruence.
Qed.

(** Joining the paragraphs with two newlines never gives more than the
    text: every separator had at least two. *)
Lemma join_splitParagraphs_length s :
  (forall b, List.length (join [10%N; 10%N] (splitParagraphs b s)) <= List.length s)
  /\ (match s with
      | c :: _ => if isNewline c then 1 else 0
      | [] => 0
      end + List.length (join [10%N; 10%N] (splitParagraphs true s)) <= List.length s).
Proof.
  induction s as [|c s [IH IH1]]; [simpl; split; [intros; lia | lia]|].
  assert (Hcons : List.length (join [10%N; 10%N] (consHead c (splitParagraphs false s)))
                  <= List.length (c :: s)).
  { rewrite join_consHead by apply splitParagraphs_not_nil.
    simpl. specialize (IH false). lia. }
  split.
  - intros b. simpl splitParagraphs.
    destruct (isNewline c); [|exact Hcons].
    destruct b; [specialize (IH true); simpl; lia|].
    destruct s as [|c2 s']; [exact Hcons|].
    destruct (isNewline c2); [|exact Hcons].
    rewrite join_cons by apply splitParagraphs_not_nil.
    simpl in *. lia.
  - simpl splitParagraphs. destruct (isNewline c).
    + specialize (IH true). simpl. lia.
    + exact Hcons.
Qed.

(** Dropping the last piece drops it and the separator before it. *)
Lemma join_removelast_length sep ps :
  1 < List.length ps ->
  List.length (join sep (removelast ps)) + List.length sep <= List.length (join sep ps).
Proof.
  induction ps as [|p ps IH]; simpl; [lia|].
  destruct ps as [|p' ps]; [simpl; lia|]. intros _.
  destruct ps as [|p'' ps].
  - simpl. rewrite !length_app. lia.
  - assert (H : 1 < List.length (p' :: p'' :: ps)) by (simpl; lia).
    specialize (IH H).
    change (removelast (p' :: p'' :: ps)) with (p' :: removelast (p'' :: ps)) in *.
    rewrite join_cons by discriminate.
    rewrite !length_app. lia.
Qed.

Lemma applyPenalty_shorter mode content :
  content <> [] ->
  List.length (applyPenalty mode content) < List.length content.
Proof.
  intros Hne.
  assert (Hpos : 0 < List.length content) by (destruct content; [contradiction | simpl; lia]).
  destruct mode; simpl; [exact Hpos | |].
  - destruct (1 <? List.length (splitParagraphs false content)) eqn:E; [|exact Hpos].
    apply Nat.ltb_lt in E.
    pose proof (join_removelast_length [10%N; 10%N] _ E) as H1.
    destruct (join_splitParagraphs_length content) as [H2 _].
    specialize (H2 false). simpl in H1. lia.
  - pose proof (trimEnd_length content) as Ht.
    destruct (matchLastSentence (trimEnd content)) as [m|] eqn:E.
    + apply matchLastSentence_suffix in E as (p & c & q & Hs & -> & _ & _).
      unfold slice0. rewrite length_firstn. rewrite Hs, length_app in *.
      simpl in *. lia.
    + destruct (1 <? List.length (splitLines (trimEnd content))) eqn:E1; [|exact Hpos].
      apply Nat.ltb_lt in E1.
      pose proof (join_removelast_length [10%N] _ E1) as H1.
      rewrite join_splitLines in H1. simpl in H1. lia.
Qed.

End PenaltyEngine.

(** C9: whatever the mode, the penalty never lengthens the content and
    makes every non-empty content strictly shorter. *)
Theorem applyPenalty_length :
  forall (mode : PenaltyType) (content : jsstring),
    (List.length (applyPenalty mode content) <= List.length content)%nat
    /\ (content <> [] ->
        (List.length (applyPenalty mode content) < List.length content)%nat).
Proof.
  intros mode content. split; [|apply applyPenalty_shorter].
  destruct content as [|c s].
  - destruct mode; simpl; lia.
  - apply Nat.lt_le_incl, applyPenalty_shorter. discriminate.
Qed.

Lemma applyPenalty_length_witness :
  (List.length (applyPenalty PenaltySentence (str "One. Two"))
   < List.length (str "One. Two"))%nat.
Proof.
  apply (applyPenalty_length PenaltySentence (str "One. Two")).
  discriminate.
Defined.

(** The examples of the spec that the code meets. *)
Example applyPenalty_empty mode : applyPenalty mode [] = [].
Proof. destruct mode; reflexivity. Qed.

Example applyPenalty_all_ex : applyPenalty PenaltyAll (str "any text here") = [].
Proof. reflexivity. Qed.

Example applyPenalty_no_terminator :
  applyPenalty PenaltySentence (str "no terminator here") = [].
Proof. reflexivity. Qed.

Example applyPenalty_paragraphs :
  applyPenalty PenaltyParagraph
    (str "P1" ++ [10; 10]%N ++ str "P2" ++ [10; 10]%N ++ str "P3")
  = str "P1" ++ [10; 10]%N ++ str "P2".
Proof. reflexivity. Qed.

Example applyPenalty_one_paragraph :
  applyPenalty PenaltyParagraph (str "only one paragraph") = [].
Proof. reflexivity. Qed.

(** C4: on ["Hello. World."] the sentence mode removes the last terminal
    mark only: the result is ["Hello. World"], not ["Hello."]. The text
    from the last mark on is what the regex matches, and a text that ends
    with its mark loses nothing else. *)
Theorem applyPenalty_sentence_keeps_last_sentence :
  applyPenalty PenaltySentence (str "Hello. World.") = str "Hello. World"
  /\ applyPenalty PenaltySentence (str "Hello. World.") <> str "Hello.".
Proof. split; [reflexivity | discriminate]. Qed.

(** * Session state machine: properties *)

Lemma stopSession_inactive done w : sessionActive (stopSession done w) = false.
Proof.
  unfold_stop. destruct (sessionActive w) eqn:E; simpl; [|exact E].
  world_cases w; reflexivity.
Qed.

Lemma stopSession_sessions done w : sessions (stopSession done w) = sessions w.
Proof. unfold_stop. destruct (sessionActive w); world_cases w; reflexivity. Qed.

Lemma stopSession_editors done w : editors (stopSession done w) = editors w.
Proof. unfold_stop. destruct (sessionActive w); world_cases w; reflexivity. Qed.

Lemma stopSession_handles done w :
  sessionActive w = true ->
  sessionInterval (stopSession done w) = None
  /\ idleWatchdogTimeout (stopSession done w) = None
  /\ statusBarInterval (stopSession done w) = None.
Proof. unfold_stop. intros ->. world_cases w; auto. Qed.

(** The timer table after [stopSession]: the three stored handles are
    cleared, nothing else. *)
Lemma stopSession_timers done w :
  sessionActive w = true ->
  timers (stopSession done w)
  = from_option delete id (statusBarInterval w)
      (from_option delete id (idleWatchdogTimeout w)
         (from_option delete id (sessionInterval w) (timers w))).
Proof. unfold_stop. intros ->. world_cases w; reflexivity. Qed.

(** When the target is not the active Markdown view, [completeSession]
    stops the session and [triggerPenalty] does nothing at all. *)
Lemma completeSession_unreachable w :
  sessionActive w = true -> unreachable w ->
  completeSession w = stopSession false w.
Proof.
  unfold completeSession, unreachable. intros -> H. simpl.
  destruct (activeView w); [now rewrite H | reflexivity].
Qed.

Lemma triggerPenalty_unreachable recover w :
  unreachable w -> triggerPenalty recover w = w.
Proof.
  unfold triggerPenalty, unreachable. intros H.
  destruct (sessionActive w); simpl; [|reflexivity].
  destruct (activeView w); [now rewrite H | reflexivity].
Qed.

(** What [completeSession] records when the target is in front: the word
    count of the whole document. *)
Lemma completeSession_record w view :
  sessionActive w = true -> activeView w = Some view ->
  sameFile (file view) (activeFile w) = true ->
  sessions (completeSession w)
  = sessions w ++
      [ {| timestamp := now w;
           durationSeconds := (now w - sessionStartTime w) / 1000;
           wordsWritten := countWords (getValue (editor view) w);
           completed := true |} ].
Proof.
  unfold completeSession. intros -> -> ->. simpl.
  now rewrite stopSession_sessions.
Qed.

(** What [triggerPenalty] records when the target is in front. *)
Lemma triggerPenalty_record recover w view :
  sessionActive w = true -> activeView w = Some view ->
  sameFile (file view) (activeFile w) = true ->
  sessions (triggerPenalty recover w)
  = sessions w ++
      [ {| timestamp := now w;
           durationSeconds := (now w - sessionStartTime w) / 1000;
           wordsWritten := countWords (getValue (editor view) w);
           completed := false |} ].
Proof.
  unfold triggerPenalty. intros -> -> ->. simpl.
  destruct (practiceMode (settings w) && recover); simpl;
    now rewrite stopSession_sessions.
Qed.

(** C1: a session begun on a note of three words with a goal of two; the
    user types two more words and the goal check fires. The record holds
    [wordsWritten = 5], the word count of the whole note, where the final
    count minus [initialWordCount] is 2. The same happens on the penalty
    path: one more word typed, the idle timeout fires, the record holds 4
    where the difference is 1. *)
Theorem wordsWritten_is_total_count :
  let typed := step (EvEdit 0 (str "a b c d e")) scenarioStart in
  let ended := step (EvTimer 1 false) (step (EvClock 1000) typed) in
  let typed' := step (EvEdit 0 (str "a b c d")) scenarioStart in
  let punished := step (EvTimer 4 false) (step (EvClock 5000) typed') in
  initialWordCount typed = 3
  /\ countWords (getValue 0 typed) - initialWordCount typed = 2
  /\ sessions ended
     = [ {| timestamp := 2000; durationSeconds := 1;
            wordsWritten := 5; completed := true |} ]
  /\ countWords (getValue 0 typed') - initialWordCount typed' = 1
  /\ sessions punished
     = [ {| timestamp := 6000; durationSeconds := 5;
            wordsWritten := 4; completed := false |} ].
Proof. vm_compute. repeat split; reflexivity. Qed.

(** C2, as amended: when the active leaf of an active session changes to a
    Markdown view whose file has another path than the target, the session
    ends, no editor text changes, and the history is left as it was: no
    record is appended. *)
Theorem leaf_change_aborts_without_record :
  forall (w : World) (view : MarkdownView) (target currentFile : TFile),
    sessionActive w = true ->
    activeFile w = Some target ->
    file view = Some currentFile ->
    path currentFile <> path target ->
    let w' := step (EvActiveLeafChange (Some (ViewMarkdown view))) w in
    sessionActive w' = false
    /\ editors w' = editors w
    /\ sessions w' = sessions w.
Proof.
  intros w view target currentFile Hact Htarget Hfile Hpath. simpl.
  unfold onActiveLeafChange. simpl. rewrite Hact, Htarget, Hfile.
  rewrite bool_decide_eq_false_2 by assumption. simpl.
  rewrite stopSession_inactive, stopSession_editors, stopSession_sessions.
  auto.
Qed.

Lemma leaf_change_aborts_without_record_witness :
  let w' := step (EvActiveLeafChange (Some (ViewMarkdown otherView))) scenarioStart in
  sessionActive w' = false
  /\ editors w' = editors scenarioStart
  /\ sessions w' = sessions scenarioStart.
Proof.
  apply (leaf_change_aborts_without_record scenarioStart otherView note other);
    [reflexivity | reflexivity | reflexivity | discriminate].
Defined.

(** C2, as stated, fails: after the switch from the note of the scenario to
    the other note no record with [completed = false] has been appended. *)
Lemma leaf_change_record_missing :
  let w := scenarioStart in
  let w' := step (EvActiveLeafChange (Some (ViewMarkdown otherView))) w in
  sessionActive w = true
  /\ activeFile w = Some note
  /\ path other <> path note
  /\ ~ (exists r, sessions w' = sessions w ++ [r] /\ completed r = false).
Proof.
  repeat split; [discriminate|].
  intros (r & H & _). vm_compute in H. discriminate.
Qed.

(** C3: the user moves from the note to a view that is not a Markdown view
    (the session goes on), then stays idle until the timeout (timer 2)
    fires. [triggerPenalty] returns at once: the session is still active and
    its goal check is still pending; no text and no record has changed. *)
Theorem triggerPenalty_unreachable_stays_active :
  let w := step (EvClock 5000) (step (EvActiveLeafChange (Some ViewOther)) scenarioStart) in
  let w' := step (EvTimer 2 false) w in
  sessionActive w = true
  /\ activeView w = None
  /\ timers w !! 2%nat = Some (mkTimer false 5000 IdleTimeout)
  /\ sessionActive w' = true
  /\ timers w' !! 1%nat = Some (mkTimer true 1000 (GoalCheck 0))
  /\ editors w' = editors w
  /\ sessions w' = sessions w.
Proof. vm_compute. repeat split; reflexivity. Qed.

(** * Timers: properties *)

(** A warning poll that fires when no session is active removes itself. *)
Lemma warningCheck_self_terminates id recover t threshold w :
  sessionActive w = false ->
  timers w !! id = Some t -> callback t = WarningCheck threshold ->
  timers (fireTimer id recover w) !! id = None.
Proof.
  intros Hact Ht Hcb. unfold fireTimer. rewrite Ht. simpl. rewrite Hcb. simpl.
  unfold warningCheck, clearTimer.
  destruct (repeating t); simpl; rewrite Hact; simpl; apply lookup_delete_eq.
Qed.

(** C5, as amended: [stopSession] cancels the goal-check interval and the
    idle timeout before it returns and forgets their handles. It leaves
    every other pending timer alone, the 50 ms warning polls among them; a
    poll left pending removes itself the first time it fires after the
    stop. *)
Theorem stopSession_cancels_stored_timers :
  forall (done : bool) (w : World),
    sessionActive w = true ->
    let w' := stopSession done w in
    sessionActive w' = false
    /\ (forall id, sessionInterval w = Some id -> timers w' !! id = None)
    /\ (forall id, idleWatchdogTimeout w = Some id -> timers w' !! id = None)
    /\ sessionInterval w' = None
    /\ idleWatchdogTimeout w' = None
    /\ (forall id,
          sessionInterval w <> Some id -> idleWatchdogTimeout w <> Some id ->
          statusBarInterval w <> Some id ->
          timers w' !! id = timers w !! id)
    /\ (forall id recover threshold,
          timers w' !! id = Some (mkTimer true 50 (WarningCheck threshold)) ->
          timers (fireTimer id recover w') !! id = None).
Proof.
  intros done w Hact w'. subst w'.
  destruct (stopSession_handles done w Hact) as (Hi & Hw & _).
  rewrite stopSession_timers by assumption.
  split; [apply stopSession_inactive|].
  split; [|split; [|split; [exact Hi|split; [exact Hw|split]]]].
  - intros id ->. simpl.
    destruct (statusBarInterval w), (idleWatchdogTimeout w); simpl;
      rewrite ?lookup_delete; repeat case_decide; congruence.
  - intros id ->. simpl.
    destruct (statusBarInterval w); simpl;
      rewrite ?lookup_delete; repeat case_decide; congruence.
  - intros id H1 H2 H3.
    destruct (statusBarInterval w), (idleWatchdogTimeout w), (sessionInterval w);
      simpl; rewrite ?lookup_delete; repeat case_decide; congruence.
  - intros id recover threshold Hpoll.
    apply (warningCheck_self_terminates id recover
             (mkTimer true 50 (WarningCheck threshold)) threshold).
    + apply stopSession_inactive.
    + rewrite stopSession_timers by assumption. exact Hpoll.
    + reflexivity.
Qed.

Lemma stopSession_cancels_stored_timers_witness :
  let w' := stopSession true scenarioStart in
  sessionActive w' = false
  /\ timers w' !! 1%nat = None
  /\ timers w' !! 2%nat = None
  /\ timers w' !! 3%nat = timers scenarioStart !! 3%nat.
Proof.
  destruct (stopSession_cancels_stored_timers true scenarioStart eq_refl)
    as (H0 & H1 & H2 & _ & _ & H3 & _).
  split; [exact H0|].
  split; [apply H1; reflexivity|].
  split; [apply H2; reflexivity|].
  apply H3; discriminate.
Defined.

(** C5, as stated, fails: after the stop command on the session of the
    scenario its warning poll (timer 3) is still pending. *)
Lemma stop_leaves_warning_poll_pending :
  let w' := step EvStopCommand scenarioStart in
  sessionActive scenarioStart = true
  /\ sessionActive w' = false
  /\ timers w' !! 3%nat = Some (mkTimer true 50 (WarningCheck 3000)).
Proof. vm_compute. repeat split; reflexivity. Qed.

(** * Traces: properties *)

#[local] Arguments countWords : simpl never.
#[local] Arguments applyPenalty : simpl never.

Lemma keepsSession_refl w : keepsSession w w.
Proof. repeat split. Qed.

Lemma keepsSession_trans w1 w2 w3 :
  keepsSession w1 w2 -> keepsSession w2 w3 -> keepsSession w1 w3.
Proof.
  unfold keepsSession. intros (-> & -> & -> & ->) (-> & -> & -> & ->). auto.
Qed.

Lemma keeps_then_ends w1 w2 w3 :
  keepsSession w1 w2 -> endsSession w2 w3 -> endsSession w1 w3.
Proof.
  unfold keepsSession, endsSession. intros (<- & <- & _) H. exact H.
Qed.

Lemma stopSession_ends done w :
  sessionActive w = true -> endsSession w (stopSession done w).
Proof.
  intros H. split; [exact H|]. split; [apply stopSession_inactive|].
  left. apply stopSession_sessions.
Qed.

Lemma resetIdleWatchdog_keeps w : keepsSession w (resetIdleWatchdog w).
Proof.
  unfold resetIdleWatchdog, startWarningInterval, setInterval, setTimeout,
    setTimer, paintOverlay, clearTimer.
  world_cases w; repeat split.
Qed.

Lemma warningCheck_keeps id threshold w : keepsSession w (warningCheck id threshold w).
Proof.
  unfold warningCheck, paintOverlay, clearTimer.
  destruct (sessionActive w); simpl; [|repeat split].
  destruct (_ <=? 0); [world_cases w; repeat split|].
  destruct (warningOverlay w); [|repeat split].
  destruct (_ <=? threshold); repeat split.
Qed.

Lemma completeSession_cases w :
  completeSession w = w
  \/ endsSession w (completeSession w).
Proof.
  unfold completeSession. destruct (sessionActive w) eqn:E; simpl; [right|now left].
  destruct (activeView w) as [view|]; [|now apply stopSession_ends].
  destruct (sameFile (file view) (activeFile w)); simpl;
    [|now apply stopSession_ends].
  split; [exact E|]. split; [apply stopSession_inactive|].
  right. rewrite stopSession_sessions. simpl. eauto.
Qed.

Lemma triggerPenalty_cases recover w :
  triggerPenalty recover w = w
  \/ (endsSession w (triggerPenalty recover w)
      /\ completedCount (triggerPenalty recover w) = completedCount w).
Proof.
  unfold triggerPenalty. destruct (sessionActive w) eqn:E; simpl; [|now left].
  destruct (activeView w) as [view|]; [|now left].
  destruct (sameFile (file view) (activeFile w)); simpl; [right|now left].
  unfold endsSession, completedCount.
  destruct (practiceMode (settings w) && recover); simpl;
    rewrite ?stopSession_sessions, ?stopSession_inactive; simpl;
    rewrite List.filter_app, length_app; simpl;
    (split; [split; [exact E | split; [reflexivity | right; eauto]] | lia]).
Qed.

Lemma goalCheck_cases ed w :
  goalCheck ed w = w \/ (goalReached ed w /\ goalCheck ed w = completeSession w).
Proof.
  unfold goalCheck, goalReached. destruct (wordCountGoal w) as [goal|].
  - destruct (Z.leb_spec goal (countWords (getValue ed w) - initialWordCount w)); auto.
  - destruct (Z.leb_spec (sessionDurationMs w) (now w - sessionStartTime w)); auto.
Qed.

Lemma goalCheck_reached ed w :
  goalReached ed w -> goalCheck ed w = completeSession w.
Proof.
  unfold goalCheck, goalReached. destruct (wordCountGoal w) as [goal|]; intros H.
  - now apply Z.leb_le in H as ->.
  - now apply Z.leb_le in H as ->.
Qed.


Lemma createWarningOverlay_keeps w : keepsSession w (createWarningOverlay w).
Proof. unfold createWarningOverlay. destruct (warningOverlay w); repeat split. Qed.

Lemma beginSession_sessions f ed config w :
  sessions (beginSession f ed config w) = sessions w.
Proof.
  unfold beginSession, setInterval, setTimer.
  destruct (configWordCountGoal config); simpl;
    match goal with
    | |- context [createWarningOverlay (resetIdleWatchdog ?x)] =>
        destruct (createWarningOverlay_keeps (resetIdleWatchdog x)) as (_ & -> & _);
        destruct (resetIdleWatchdog_keeps x) as (_ & -> & _)
    end; reflexivity.
Qed.

(** What firing a timer can do to the session. *)
Lemma fireTimer_cases id recover w :
  keepsSession w (fireTimer id recover w)
  \/ (endsSession w (fireTimer id recover w)
      /\ exists t, timers w !! id = Some t
           /\ ((callback t = IdleTimeout
                /\ completedCount (fireTimer id recover w) = completedCount w)
               \/ exists ed, callback t = GoalCheck ed /\ goalReached ed w)).
Proof.
  unfold fireTimer. destruct (timers w !! id) as [t|] eqn:Ht;
    [|left; apply keepsSession_refl].
  set (w1 := if repeating t then w else clearTimer id w).
  assert (Hk : keepsSession w w1) by (subst w1; destruct (repeating t); repeat split).
  assert (Hc : completedCount w1 = completedCount w)
    by (subst w1; destruct (repeating t); reflexivity).
  assert (Hg : forall ed, goalReached ed w1 -> goalReached ed w)
    by (subst w1; destruct (repeating t); auto).
  destruct (callback t) as [ed| |threshold] eqn:Hcb; simpl.
  - destruct (goalCheck_cases ed w1) as [-> | [Hr ->]]; [now left|].
    destruct (completeSession_cases w1) as [-> | He]; [now left|].
    right. split; [eapply keeps_then_ends; eauto|].
    exists t. split; [reflexivity|]. right. exists ed. auto.
  - destruct (triggerPenalty_cases recover w1) as [-> | [He Hn]]; [now left|].
    right. split; [eapply keeps_then_ends; eauto|].
    exists t. split; [reflexivity|]. left. split; [exact Hcb | congruence].
  - left. eapply keepsSession_trans; [exact Hk | apply warningCheck_keeps].
Qed.

(** What an event can do to the session. *)
Lemma step_cases e w :
  isBegin e = false ->
  keepsSession w (step e w)
  \/ (endsSession w (step e w)
      /\ sessionExit (fun ed => goalReached ed w) e w
      /\ (completedCount (step e w) <> completedCount w ->
          exists id recover t ed,
            e = EvTimer id recover /\ timers w !! id = Some t
            /\ callback t = GoalCheck ed /\ goalReached ed w)).
Proof.
  destruct e as [ed text|leaf|id recover|dt| | |f ed config|s]; simpl;
    intros Hb; try discriminate.
  - left. unfold onEditorChange.
    destruct (sessionActive (setValue ed text w));
      [|repeat split].
    eapply keepsSession_trans; [|apply resetIdleWatchdog_keeps]. repeat split.
  - unfold onActiveLeafChange. simpl.
    destruct (sessionActive w) eqn:E; [|left; repeat split].
    destruct leaf as [[view|]|]; try solve [left; repeat split].
    destruct (activeFile w) as [target|] eqn:Ht; [|left; repeat split].
    destruct (file view) as [currentFile|] eqn:Hf; [|left; repeat split].
    destruct (bool_decide_reflect (path currentFile = path target)) as [Hp|Hp];
      simpl; [left; repeat split|].
    right. split; [|split].
    + eapply keeps_then_ends; [|apply stopSession_ends; exact E]. repeat split.
    + exists view, target, currentFile. auto.
    + intros H. exfalso. apply H. unfold completedCount.
      now rewrite stopSession_sessions.
  - destruct (fireTimer_cases id recover w) as [H | (He & t & Ht & H)]; [now left|].
    right. split; [exact He|]. split.
    + exists t. split; [exact Ht|].
      destruct H as [[H _] | (ed & H1 & H2)]; [now left | right; eauto].
    + intros Hn. destruct H as [[_ H] | (ed & H1 & H2)]; [contradiction|].
      exists id, recover, t, ed. auto.
  - left. repeat split.
  - unfold stopCommand. destruct (sessionActive w) eqn:E; [|left; repeat split].
    right. split; [now apply stopSession_ends|]. split; [exact I|].
    intros H. exfalso. apply H. unfold completedCount.
    now rewrite stopSession_sessions.
  - unfold onunload. destruct (sessionActive w) eqn:E.
    + right. split; [|split; [exact I|]].
      * destruct (stopSession_ends false w E) as (H1 & H2 & H3).
        unfold removeWarningOverlay.
        destruct (warningOverlay (stopSession false w)); repeat split; auto.
      * intros H. exfalso. apply H. unfold completedCount, removeWarningOverlay.
        destruct (warningOverlay (stopSession false w)); simpl;
          now rewrite stopSession_sessions.
    + left. unfold removeWarningOverlay.
      destruct (warningOverlay w); repeat split.
  - left. repeat split.
Qed.

(** Without a new [beginSession] an inactive plugin stays inactive and
    records nothing. *)
Lemma run_inactive evs w :
  noBegin evs = true -> sessionActive w = false ->
  sessionActive (run evs w) = false /\ sessions (run evs w) = sessions w.
Proof.
  revert w. induction evs as [|e evs IH]; intros w Hb Hw; simpl; [auto|].
  simpl in Hb. apply andb_prop in Hb as [He Hb]. apply negb_true_iff in He.
  destruct (step_cases e w He) as [(H1 & H2 & _) | ((H1 & _) & _)]; [|congruence].
  destruct (IH (step e w) Hb) as [H3 H4]; [congruence|].
  split; [exact H3 | congruence].
Qed.

(** While the session goes on, its goal and duration are those it began
    with. *)
Lemma run_active_goal evs w :
  noBegin evs = true -> sessionActive (run evs w) = true ->
  wordCountGoal (run evs w) = wordCountGoal w
  /\ sessionDurationMs (run evs w) = sessionDurationMs w.
Proof.
  revert w. induction evs as [|e evs IH]; intros w Hb Hw; simpl in *; [auto|].
  apply andb_prop in Hb as [He Hb]. apply negb_true_iff in He.
  destruct (step_cases e w He) as [(_ & _ & H3 & H4) | ((_ & H2 & _) & _)].
  - destruct (IH (step e w) Hb Hw) as [H5 H6]. split; congruence.
  - destruct (run_inactive evs (step e w) Hb H2) as [H _]. congruence.
Qed.





(** C10: a session begun with a word goal stores the goal and the duration
    0. As long as it is active, whatever happens (short of a new
    [beginSession]), the goal and the duration stay so; a goal check that
    finds the goal not reached leaves the world as it is whatever the clock
    shows; and an event that ends the session is the idle penalty, a goal
    check with the word goal reached, a change to a Markdown view on
    another path, the stop command or the unloading of the plugin: never
    the clock. *)
Theorem word_goal_session_has_no_time_limit :
  forall (f : TFile) (ed : nat) (config : SessionConfig) (goal : Z) (w0 : World),
    configWordCountGoal config = Some goal ->
    let w := beginSession f ed config w0 in
    sessionActive w = true /\ wordCountGoal w = Some goal
    /\ sessionDurationMs w = 0
    /\ forall evs : list Event,
         noBegin evs = true ->
         let w1 := run evs w in
         sessionActive w1 = true ->
         wordCountGoal w1 = Some goal /\ sessionDurationMs w1 = 0
         /\ (forall (ed' : nat) (t : Z),
               countWords (getValue ed' w1) - initialWordCount w1 < goal ->
               goalCheck ed' (set_now t w1) = set_now t w1)
         /\ (forall dt : N, sessionActive (step (EvClock dt) w1) = true)
         /\ (forall e : Event,
               isBegin e = false -> sessionActive (step e w1) = false ->
               wordGoalExit goal e w1).
Proof.
  intros f ed config goal w0 Hcfg w.
  assert (Hw : sessionActive w = true /\ wordCountGoal w = Some goal
               /\ sessionDurationMs w = 0).
  { subst w. unfold beginSession, setInterval, setTimer. rewrite Hcfg. simpl.
    match goal with
    | |- context [createWarningOverlay (resetIdleWatchdog ?x)] =>
        destruct (createWarningOverlay_keeps (resetIdleWatchdog x))
          as (-> & _ & -> & ->);
        destruct (resetIdleWatchdog_keeps x) as (-> & _ & -> & ->)
    end. auto. }
  destruct Hw as (Ha & Hg & Hd).
  split; [exact Ha|]. split; [exact Hg|]. split; [exact Hd|].
  intros evs Hb w1 Ha1.
  destruct (run_active_goal evs w Hb Ha1) as [Hg1 Hd1].
  fold w1 in Hg1, Hd1. rewrite Hg in Hg1. rewrite Hd in Hd1.
  split; [exact Hg1|]. split; [exact Hd1|]. split; [|split].
  - intros ed' t Hlt. unfold goalCheck. simpl. rewrite Hg1.
    change (getValue ed' (set_now t w1)) with (getValue ed' w1).
    now apply Z.leb_gt in Hlt as ->.
  - intros dt. exact Ha1.
  - intros e He Hend.
    destruct (step_cases e w1 He) as [(H & _) | (_ & Hx & _)]; [congruence|].
    unfold wordGoalExit. unfold goalReached in Hx. rewrite Hg1 in Hx. exact Hx.
Qed.

Lemma word_goal_session_has_no_time_limit_witness :
  sessionActive scenarioStart = true
  /\ wordCountGoal scenarioStart = Some 2
  /\ sessionDurationMs scenarioStart = 0.
Proof.
  destruct (word_goal_session_has_no_time_limit note 0%nat
              (mkSessionConfig None (Some 2)) 2 scenarioIdle eq_refl)
    as (H1 & H2 & H3 & _).
  auto.
Defined.

(** * Warning intensity: properties *)

Section WarningIntensity.

Local Open Scope Q_scope.










End WarningIntensity.




(** * Penalty engine: further properties *)

Section PenaltyShape.

Local Open Scope nat_scope.

Lemma trimEnd_prefix s : trimEnd s `prefix_of` s.
Proof. destruct (trimEnd_split s) as (r & H & _). exists r. exact H. Qed.

Lemma join_removelast_prefix sep ps :
  join sep (removelast ps) `prefix_of` join sep ps.
Proof.
  induction ps as [|p ps IH]; [reflexivity|].
  destruct ps as [|p' ps]; [apply prefix_nil|].
  destruct ps as [|p'' ps].
  - simpl. apply prefix_app_r. reflexivity.
  - change (removelast (p :: p' :: p'' :: ps))
      with (p :: removelast (p' :: p'' :: ps)).
    change (removelast (p' :: p'' :: ps))
      with (p' :: removelast (p'' :: ps)) in *.
    rewrite (join_cons sep p (p' :: removelast (p'' :: ps))) by discriminate.
    rewrite (join_cons sep p (p' :: p'' :: ps)) by discriminate.
    apply prefix_app, prefix_app. exact IH.
Qed.

Lemma matchLastSentence_none s :
  forallb (fun d => negb (isTerminal d)) s = true -> matchLastSentence s = None.
Proof.
  induction s as [|c s IH]; simpl; [reflexivity|].
  intros H. apply andb_prop in H as [Hc Hs].
  apply negb_true_iff in Hc. rewrite Hc. simpl. auto.
Qed.

Lemma splitLines_app p q :
  splitLines (p ++ 10%N :: q) = splitLines p ++ splitLines q.
Proof.
  induction p as [|c p IH]; simpl; [reflexivity|].
  rewrite IH. destruct (isNewline c); [reflexivity|].
  pose proof (splitLines_not_nil p) as Hne.
  destruct (splitLines p); [contradiction | reflexivity].
Qed.

Lemma splitLines_one_line q :
  forallb (fun d => negb (isNewline d)) q = true -> splitLines q = [q].
Proof.
  induction q as [|c q IH]; simpl; [reflexivity|].
  intros H. apply andb_prop in H as [Hc Hq].
  apply negb_true_iff in Hc. rewrite Hc, IH by assumption. reflexivity.
Qed.

Lemma applyPenalty_nil mode : applyPenalty mode [] = [].
Proof. destruct mode; reflexivity. Qed.

Lemma iter_applyPenalty_length mode n content :
  List.length (Nat.iter n (applyPenalty mode) content) <= List.length content - n.
Proof.
  induction n as [|n IH]; simpl; [lia|].
  destruct (Nat.iter n (applyPenalty mode) content) as [|c s] eqn:E.
  - rewrite applyPenalty_nil. simpl. lia.
  - assert (H : c :: s <> []) by discriminate.
    apply (applyPenalty_shorter mode) in H. simpl in *. lia.
Qed.

End PenaltyShape.

(** X1: in the modes [all] and [sentence] the penalty only cuts off the end
    of the text: what is left is a prefix of the old content. The mode
    [paragraph] does not have this property: separators of three or more
    newlines between the paragraphs that stay are rewritten to two. *)
Theorem applyPenalty_cuts_the_end :
  (forall content, applyPenalty PenaltyAll content `prefix_of` content)
  /\ (forall content, applyPenalty PenaltySentence content `prefix_of` content)
  /\ applyPenalty PenaltyParagraph
       (str "a" ++ [10; 10; 10]%N ++ str "b" ++ [10; 10; 10]%N ++ str "c")
     = str "a" ++ [10; 10]%N ++ str "b".
Proof.
  split; [|split].
  - intros content. apply prefix_nil.
  - intros content. unfold applyPenalty.
    etransitivity; [|apply trimEnd_prefix].
    destruct (matchLastSentence (trimEnd content)).
    + unfold slice0. apply prefix_take.
    + destruct (1 <? _)%nat; [|apply prefix_nil].
      rewrite <- (join_splitLines (trimEnd content)) at 2.
      apply join_removelast_prefix.
  - reflexivity.
Qed.

(** X2: what the mode [sentence] leaves, read on the content without its
    trailing white space. With a terminal mark in it: the text before the
    last mark. Without a mark but with a newline: the text before the last
    newline. With neither: nothing. *)
Theorem applyPenalty_sentence_result :
  forall (content p q : jsstring) (c : N),
    trimEnd content = p ++ c :: q ->
    (isTerminal c = true ->
     forallb (fun d => negb (isTerminal d)) q = true ->
     applyPenalty PenaltySentence content = p)
    /\ (c = 10%N ->
        forallb (fun d => negb (isTerminal d)) (p ++ q) = true ->
        forallb (fun d => negb (isNewline d)) q = true ->
        applyPenalty PenaltySentence content = p)
    /\ (forallb (fun d => negb (isTerminal d) && negb (isNewline d))
          (trimEnd content) = true ->
        applyPenalty PenaltySentence content = []).
Proof.
  intros content p q c Ht. split; [|split].
  - intros Hc Hq. now apply (applyPenalty_sentence_last_mark content p c q).
  - intros -> Hpq Hq. unfold applyPenalty. rewrite Ht.
    rewrite matchLastSentence_none.
    + rewrite splitLines_app, (splitLines_one_line q Hq).
      rewrite removelast_last, join_splitLines.
      rewrite length_app. simpl.
      replace (1 <? List.length (splitLines p) + 1)%nat with true; [reflexivity|].
      symmetry. apply Nat.ltb_lt.
      pose proof (splitLines_not_nil p). destruct (splitLines p); [contradiction|simpl; lia].
    + rewrite forallb_app in *. simpl. apply andb_prop in Hpq as [-> ->]. reflexivity.
  - intros H. unfold applyPenalty.
    rewrite matchLastSentence_none, splitLines_one_line; [reflexivity | |].
    + rewrite forallb_forall in *. intros x Hx.
      specialize (H x Hx). now apply andb_prop in H as [_ ->].
    + rewrite forallb_forall in *. intros x Hx.
      specialize (H x Hx). now apply andb_prop in H as [-> _].
Qed.

Lemma applyPenalty_sentence_result_witness :
  applyPenalty PenaltySentence (str "One. Two ") = str "One"
  /\ applyPenalty PenaltySentence (str "one" ++ [10%N] ++ str "two") = str "one".
Proof.
  split.
  - destruct (applyPenalty_sentence_result (str "One. Two ") (str "One")
                (str " Two") 46%N eq_refl) as (H & _ & _).
    apply H; reflexivity.
  - destruct (applyPenalty_sentence_result (str "one" ++ [10%N] ++ str "two")
                (str "one") (str "two") 10%N eq_refl) as (_ & H & _).
    apply H; reflexivity.
Defined.

(** X3: the penalty wears any text down to nothing: applied as many times
    as the content has code units, in any mode, it leaves the empty text. *)
Theorem applyPenalty_iterated_empties :
  forall (mode : PenaltyType) (content : jsstring),
    Nat.iter (List.length content) (applyPenalty mode) content = [].
Proof.
  intros mode content.
  pose proof (iter_applyPenalty_length mode (List.length content) content) as H.
  destruct (Nat.iter _ _ content); [reflexivity | simpl in H; lia].
Qed.

(** * Word counter: further properties *)

Section WordCounterShape.

Local Open Scope nat_scope.

Lemma runs_app_ws a c b inrun :
  isWhiteSpace c = true ->
  nonWhitespaceRuns inrun (a ++ c :: b)
  = nonWhitespaceRuns inrun a + nonWhitespaceRuns false b.
Proof.
  intros Hc. revert inrun. induction a as [|x a IH]; intros inrun; simpl.
  - now rewrite Hc.
  - destruct (isWhiteSpace x); rewrite IH; lia.
Qed.

Lemma runs_word_inrun word :
  forallb (fun d => negb (isWhiteSpace d)) word = true ->
  nonWhitespaceRuns true word = 0.
Proof.
  induction word as [|x word IH]; simpl; [reflexivity|].
  intros H. apply andb_prop in H as [Hx Hw].
  apply negb_true_iff in Hx. rewrite Hx. simpl. auto.
Qed.

Lemma runs_word word :
  word <> [] ->
  forallb (fun d => negb (isWhiteSpace d)) word = true ->
  nonWhitespaceRuns false word = 1.
Proof.
  destruct word as [|x word]; [contradiction|]. simpl. intros _ H.
  apply andb_prop in H as [Hx Hw]. apply negb_true_iff in Hx. rewrite Hx.
  now rewrite runs_word_inrun.
Qed.

Lemma runs_inrun_le s :
  nonWhitespaceRuns true s <= nonWhitespaceRuns false s
  /\ nonWhitespaceRuns false s <= S (nonWhitespaceRuns true s).
Proof. destruct s as [|x s]; simpl; [lia|]. destruct (isWhiteSpace x); lia. Qed.

(** Text added behind never lowers the number of runs, and adds at most
    the runs of its own. *)
Lemma runs_app_bounds a b inrun :
  nonWhitespaceRuns inrun a <= nonWhitespaceRuns inrun (a ++ b)
  /\ nonWhitespaceRuns inrun (a ++ b)
     <= nonWhitespaceRuns inrun a + nonWhitespaceRuns false b.
Proof.
  revert inrun. induction a as [|x a IH]; intros inrun; simpl.
  - destruct inrun; [|lia]. pose proof (runs_inrun_le b). lia.
  - destruct (isWhiteSpace x).
    + apply IH.
    + specialize (IH true). lia.
Qed.

End WordCounterShape.

(** X4: how the word count follows the typing. Two texts joined by a white
    space character count the sum of their words; so a separator and one
    more word add exactly one. Text appended without a separator never
    lowers the count and adds at most its own words. *)
Theorem countWords_of_appended_text :
  (forall (a b : jsstring) (c : N),
     isWhiteSpace c = true ->
     countWords (a ++ c :: b) = countWords a + countWords b)
  /\ (forall (text word : jsstring) (c : N),
        isWhiteSpace c = true -> word <> [] ->
        forallb (fun d => negb (isWhiteSpace d)) word = true ->
        countWords (text ++ c :: word) = countWords text + 1)
  /\ (forall a b : jsstring,
        countWords a <= countWords (a ++ b) <= countWords a + countWords b).
Proof.
  split; [|split].
  - intros a b c Hc. rewrite !countWords_runs, runs_app_ws by assumption. lia.
  - intros text word c Hc Hne Hw.
    rewrite !countWords_runs, runs_app_ws by assumption.
    rewrite (runs_word word Hne Hw). lia.
  - intros a b. rewrite !countWords_runs.
    pose proof (runs_app_bounds a b false). lia.
Qed.

Lemma countWords_of_appended_text_witness :
  countWords (str "one two" ++ 32%N :: str "three") = countWords (str "one two") + 1.
Proof.
  destruct countWords_of_appended_text as (_ & H & _).
  apply (H (str "one two") (str "three") 32%N); [reflexivity | discriminate | reflexivity].
Defined.

(** * Configuration dialog: properties *)

Lemma presets_positive m i preset :
  nth_error (presets m) i = Some preset -> 0 < preset.
Proof.
  unfold presets. intros H. apply nth_error_In in H.
  destruct (useWordCount m); simpl in H; intuition lia.
Qed.

Lemma modalStep_ranges a m :
  0 < modalDurationMinutes m -> 0 <= modalWordCountGoal m ->
  0 < modalDurationMinutes (modalStep a m)
  /\ 0 <= modalWordCountGoal (modalStep a m).
Proof.
  intros Hd Hg. destruct a as [| |i|[num|]]; simpl; auto.
  - destruct (nth_error (presets m) i) as [preset|] eqn:E; [|auto].
    apply presets_positive in E. unfold setModalValue.
    destruct (useWordCount m); simpl; lia.
  - destruct (Z.ltb_spec 0 num); [|simpl; auto]. unfold setModalValue. simpl.
    destruct (useWordCount m); simpl; lia.
Qed.

(** The field and the stored value: a text written by the dialog is that of
    [CONFIG[mode].get()], and a typed number that is positive is stored. *)
Lemma setMode_field words m n :
  inputValue (setMode words m) = Rendered n -> n = configGet (setMode words m).
Proof. unfold setMode, setInputValue, configGet. simpl. congruence. Qed.

Lemma modalStep_field a m :
  0 < modalDurationMinutes m ->
  (forall n, inputValue m = Rendered n -> n = configGet m)
  /\ (forall n, inputValue m = Typed (Some n) -> 0 < n -> storedValue m = n) ->
  (forall n, inputValue (modalStep a m) = Rendered n -> n = configGet (modalStep a m))
  /\ (forall n, inputValue (modalStep a m) = Typed (Some n) -> 0 < n ->
        storedValue (modalStep a m) = n).
Proof.
  intros Hd [H1 H2]. destruct a as [| |i|parsed]; simpl.
  - split; [apply setMode_field | discriminate].
  - split; [apply setMode_field | discriminate].
  - destruct (nth_error (presets m) i) as [preset|] eqn:E; [|auto].
    apply presets_positive in E.
    unfold setModalValue, setInputValue, configGet, storedValue.
    destruct (useWordCount m); simpl.
    + split; [|discriminate]. intros n [= <-].
      destruct (Z.ltb_spec 0 preset); [reflexivity | lia].
    + split; [|discriminate]. intros n [= <-].
      destruct (Z.eqb_spec preset 0); [lia | reflexivity].
  - destruct parsed as [num|]; [destruct (Z.ltb_spec 0 num)|];
      unfold setModalValue, setInputValue, storedValue;
      try destruct (useWordCount m); simpl;
      (split; [discriminate|]); intros n [= <-]; (reflexivity || lia).
Qed.

Lemma submit_rejected_input parsed m :
  (parsed = None \/ exists n, parsed = Some n /\ n <= 0) ->
  submit (modalStep (TypeInput parsed) m) = submit m
  /\ inputValue (modalStep (TypeInput parsed) m) = Typed parsed.
Proof.
  intros [-> | (n & -> & Hn)]; simpl; [auto|].
  destruct (Z.ltb_spec 0 n); [lia|]. auto.
Qed.

Lemma beginSession_goal f ed config w :
  sessionActive (beginSession f ed config w) = true
  /\ wordCountGoal (beginSession f ed config w) = configWordCountGoal config
  /\ sessionDurationMs (beginSession f ed config w)
     = match configWordCountGoal config with
       | Some _ => 0
       | None => durationOrDefault (durationMinutes config) * 60 * 1000
       end.
Proof.
  unfold beginSession, setInterval, setTimer.
  destruct (configWordCountGoal config); simpl;
    match goal with
    | |- context [createWarningOverlay (resetIdleWatchdog ?x)] =>
        destruct (createWarningOverlay_keeps (resetIdleWatchdog x))
          as (-> & _ & -> & ->);
        destruct (resetIdleWatchdog_keeps x) as (-> & _ & -> & ->)
    end; auto.
Qed.

(** X5: a dialog opened with a positive default duration and a default word
    goal that is not negative keeps both so whatever the user clicks and
    types. The Start button reads the stored values, not the input field:
    in minutes mode it always hands over the stored duration; in words mode
    it hands over the stored goal when that is positive and refuses when it
    is 0 (the default). The field agrees with the stored value of the mode
    on display when it holds a typed number that is positive; a text
    written by the dialog is that of [CONFIG[mode].get()], which is the
    stored value except for the stored goal 0, where it is 500 while Start
    refuses. A typed text that [parseInt] turns into [NaN], 0 or a negative
    number stays in the field and changes nothing of what Start does. *)
Theorem modal_submit_after_actions :
  forall (defaultDuration defaultWordCount : Z) (actions : list ModalAction),
    0 < defaultDuration -> 0 <= defaultWordCount ->
    let m := fold_left (fun m a => modalStep a m) actions
               (openModal defaultDuration defaultWordCount) in
    0 < modalDurationMinutes m /\ 0 <= modalWordCountGoal m
    /\ (useWordCount m = false ->
        submit m = Some (mkSessionConfig (Some (modalDurationMinutes m)) None))
    /\ (useWordCount m = true -> 0 < modalWordCountGoal m ->
        submit m = Some (mkSessionConfig None (Some (modalWordCountGoal m))))
    /\ (useWordCount m = true -> modalWordCountGoal m = 0 -> submit m = None)
    /\ (forall n, inputValue m = Typed (Some n) -> 0 < n -> storedValue m = n)
    /\ (forall n, inputValue m = Rendered n ->
        n = configGet m
        /\ (useWordCount m = true -> modalWordCountGoal m = 0 -> n = 500)
        /\ (useWordCount m = false \/ 0 < modalWordCountGoal m -> n = storedValue m))
    /\ (forall parsed,
          parsed = None \/ (exists n, parsed = Some n /\ n <= 0) ->
          submit (modalStep (TypeInput parsed) m) = submit m
          /\ inputValue (modalStep (TypeInput parsed) m) = Typed parsed).
Proof.
  intros d g actions Hd Hg m.
  assert (H : (0 < modalDurationMinutes m /\ 0 <= modalWordCountGoal m)
              /\ (forall n, inputValue m = Rendered n -> n = configGet m)
              /\ (forall n, inputValue m = Typed (Some n) -> 0 < n ->
                    storedValue m = n)).
  { subst m.
    assert (H0 : (0 < modalDurationMinutes (openModal d g)
                  /\ 0 <= modalWordCountGoal (openModal d g))
                 /\ (forall n, inputValue (openModal d g) = Rendered n ->
                       n = configGet (openModal d g))
                 /\ (forall n, inputValue (openModal d g) = Typed (Some n) ->
                       0 < n -> storedValue (openModal d g) = n)).
    { split; [simpl; lia|]. split; [apply setMode_field | discriminate]. }
    revert H0. generalize (openModal d g).
    induction actions as [|a actions IH]; intros m0 [[H1 H2] H3]; simpl.
    - auto.
    - apply IH. split; [now apply modalStep_ranges | now apply modalStep_field]. }
  destruct H as ([H1 H2] & H3 & H4).
  split; [exact H1|]. split; [exact H2|].
  split; [|split; [|split; [|split; [|split]]]].
  - intros Hm. unfold submit. rewrite Hm. simpl.
    destruct (Z.leb_spec (modalDurationMinutes m) 0); [lia | reflexivity].
  - intros Hm H5. unfold submit. rewrite Hm. simpl.
    destruct (Z.leb_spec (modalWordCountGoal m) 0); [lia | reflexivity].
  - intros Hm H5. unfold submit. rewrite Hm, H5. reflexivity.
  - exact H4.
  - intros n Hn. pose proof (H3 n Hn) as Hget. split; [exact Hget|].
    unfold configGet, storedValue in *. split.
    + intros Hm H5. rewrite Hm, H5 in Hget. exact Hget.
    + intros [Hm | H5].
      * rewrite Hm in *.
        destruct (Z.eqb_spec (modalDurationMinutes m) 0); [lia | exact Hget].
      * destruct (useWordCount m).
        -- destruct (Z.ltb_spec 0 (modalWordCountGoal m)); [exact Hget | lia].
        -- destruct (Z.eqb_spec (modalDurationMinutes m) 0); [lia | exact Hget].
  - intros parsed. apply submit_rejected_input.
Qed.

Lemma modal_submit_after_actions_witness :
  let m := fold_left (fun m a => modalStep a m)
            [ClickChip 1; TypeInput (Some 0)] (openModal 5 0) in
  submit m = Some (mkSessionConfig (Some 10) None)
  /\ inputValue m = Typed (Some 0).
Proof.
  destruct (modal_submit_after_actions 5 0 [ClickChip 1; TypeInput (Some 0)])
    as (_ & _ & H & _); [lia | lia |].
  split; [apply H|]; reflexivity.
Defined.

(** X6: a configuration the dialog accepts, with a number of minutes whose
    milliseconds a double holds exactly (at most [2 ^ 53]), starts either a
    session with a positive word goal and no duration, or a session without
    word goal whose duration is the positive number of minutes times
    60000 ms: the default of five minutes in [beginSession] is never taken.
    Beyond the bound the products of the code are rounded and the equation
    is not claimed. *)
Theorem accepted_config_begins_session :
  forall (m : ModalState) (config : SessionConfig) (f : TFile) (ed : nat) (w : World),
    submit m = Some config ->
    modalDurationMinutes m * 60000 <= 2 ^ 53 ->
    let w' := beginSession f ed config w in
    sessionActive w' = true
    /\ ((0 < modalWordCountGoal m
         /\ wordCountGoal w' = Some (modalWordCountGoal m)
         /\ sessionDurationMs w' = 0)
        \/ (0 < modalDurationMinutes m
            /\ wordCountGoal w' = None
            /\ sessionDurationMs w' = modalDurationMinutes m * 60000)).
Proof.
  intros m config f ed w Hs _ w'. subst w'.
  destruct (beginSession_goal f ed config w) as (Ha & Hg & Hd).
  split; [exact Ha|]. rewrite Hg, Hd. clear Ha Hg Hd.
  unfold submit in Hs. destruct (useWordCount m); simpl in Hs.
  - destruct (Z.leb_spec (modalWordCountGoal m) 0); [discriminate|].
    injection Hs as <-. simpl. left. auto.
  - destruct (Z.leb_spec (modalDurationMinutes m) 0); [discriminate|].
    injection Hs as <-. simpl. right.
    destruct (Z.eqb_spec (modalDurationMinutes m) 0); [lia|].
    split; [assumption|]. split; [reflexivity | lia].
Qed.

Lemma accepted_config_begins_session_witness :
  let w' := beginSession note 0 (mkSessionConfig (Some 10) None) scenarioIdle in
  sessionActive w' = true
  /\ ((0 < 0 /\ wordCountGoal w' = Some 0 /\ sessionDurationMs w' = 0)
      \/ (0 < 10 /\ wordCountGoal w' = None /\ sessionDurationMs w' = 10 * 60000)).
Proof.
  apply (accepted_config_begins_session (mkModalState 10 0 false (Rendered 10))
           (mkSessionConfig (Some 10) None) note 0%nat scenarioIdle);
    [reflexivity | simpl; lia].
Defined.

(** * Settings tab: properties *)

(** X7: the two handlers of the settings tab keep the warning threshold
    positive and no larger than the idle timeout, and the idle timeout no
    larger than 300 s, whatever is typed; they touch no other setting. An
    idle timeout typed below the threshold pulls the threshold down with
    it; a threshold typed above the idle timeout is set to the idle
    timeout. The default settings are in range. *)
Theorem settings_handlers_keep_ranges :
  validSettings DEFAULT_SETTINGS
  /\ forall (parsed : option Z) (s : Settings),
       validSettings s ->
       let s1 := onIdleTimeoutChange parsed s in
       let s2 := onWarningThresholdChange parsed s in
       validSettings s1 /\ validSettings s2
       /\ practiceMode s1 = practiceMode s /\ penaltyType s1 = penaltyType s
       /\ practiceMode s2 = practiceMode s /\ penaltyType s2 = penaltyType s
       /\ idleTimeoutSeconds s2 = idleTimeoutSeconds s
       /\ (forall n, parsed = Some n -> 0 < n < warningThresholdSeconds s ->
           idleTimeoutSeconds s1 = n /\ warningThresholdSeconds s1 = n)
       /\ (forall n, parsed = Some n -> idleTimeoutSeconds s < n ->
           warningThresholdSeconds s2 = idleTimeoutSeconds s).
Proof.
  split; [unfold validSettings; simpl; lia|].
  intros parsed s (Hw & Hi). unfold validSettings, onIdleTimeoutChange,
    onWarningThresholdChange, parsedOr.
  destruct s as [idle practice thr pen]. simpl in *.
  destruct parsed as [n|]; simpl; [destruct (Z.eqb_spec n 0); simpl|];
    repeat match goal with
           | |- context [?a <? ?b] => destruct (Z.ltb_spec a b); simpl
           | |- context [?a <=? ?b] => destruct (Z.leb_spec a b); simpl
           end;
    repeat split; try lia; simplify_eq; try lia;
    try (intros ? [= <-] ?; lia); intros ? [=].
Qed.

Lemma settings_handlers_keep_ranges_witness :
  validSettings (onIdleTimeoutChange (Some 2) DEFAULT_SETTINGS)
  /\ warningThresholdSeconds (onIdleTimeoutChange (Some 2) DEFAULT_SETTINGS) = 2.
Proof.
  destruct settings_handlers_keep_ranges as [Hd H].
  destruct (H (Some 2) DEFAULT_SETTINGS Hd) as (H1 & _ & _ & _ & _ & _ & _ & H2 & _).
  split; [exact H1|].
  apply (H2 2); [reflexivity | simpl; lia].
Defined.

(** * Statistics view: properties *)

Section Statistics.

Lemma periodSessions_nested start1 start2 ss :
  start1 <= start2 ->
  periodSessions start2 (periodSessions start1 ss) = periodSessions start2 ss.
Proof.
  intros H. unfold periodSessions. induction ss as [|s ss IH]; simpl; [reflexivity|].
  destruct (Z.leb_spec start1 (timestamp s)); simpl.
  - now rewrite IH.
  - rewrite IH. destruct (Z.leb_spec start2 (timestamp s)); [lia | reflexivity].
Qed.

Lemma periodSessions_length start ss :
  (List.length (periodSessions start ss) <= List.length ss)%nat.
Proof. apply List.filter_length_le. Qed.

Lemma fold_words_shift ss a :
  fold_left (fun sum s => sum + wordsWritten s) ss a = a + totalWords ss.
Proof.
  unfold totalWords. revert a. induction ss as [|s ss IH]; intros a; simpl; [lia|].
  rewrite IH, (IH (0 + wordsWritten s)). lia.
Qed.

Lemma fold_time_shift ss a :
  fold_left (fun sum s => sum + durationSeconds s) ss a = a + totalTime ss.
Proof.
  unfold totalTime. revert a. induction ss as [|s ss IH]; intros a; simpl; [lia|].
  rewrite IH, (IH (0 + durationSeconds s)). lia.
Qed.

Lemma totalWords_cons s ss : totalWords (s :: ss) = wordsWritten s + totalWords ss.
Proof. unfold totalWords at 1. simpl. apply fold_words_shift. Qed.

Lemma totalWords_filter_le (keep : SessionRecord -> bool) ss :
  Forall (fun s => 0 <= wordsWritten s) ss ->
  0 <= totalWords (List.filter keep ss) <= totalWords ss.
Proof.
  induction 1 as [|s ss Hs _ IH]; simpl; [unfold totalWords; simpl; lia|].
  destruct (keep s); rewrite ?totalWords_cons; lia.
Qed.

Lemma Forall_periodSessions (P : SessionRecord -> Prop) start ss :
  Forall P ss -> Forall P (periodSessions start ss).
Proof.
  unfold periodSessions. induction 1 as [|s ss Hs _ IH]; simpl; [constructor|].
  destruct (start <=? timestamp s); [constructor|]; assumption.
Qed.

Lemma periodSessions_all start ss :
  Forall (fun s => start <= timestamp s) ss -> periodSessions start ss = ss.
Proof.
  unfold periodSessions. induction 1 as [|s ss Hs _ IH]; simpl; [reflexivity|].
  apply Z.leb_le in Hs as ->. now rewrite IH.
Qed.

End Statistics.

(** X8: the periods of the statistics view are nested: the sessions of
    Today are those of the Past Week that fall into the last day, and the
    sessions of the Past Week are those of the Past Month that fall into
    the last week, so the session counts grow from Today to Past Month and,
    when no record has a negative word count, so do the word totals. All
    Time shows the whole history when no record is stamped before 0. *)
Theorem stats_periods_nested :
  forall (t : Z) (ss : list SessionRecord),
    let today := periodSessions (t - day) ss in
    let pastWeek := periodSessions (t - week) ss in
    let pastMonth := periodSessions (t - month) ss in
    periodStarts t = [t - day; t - week; t - month; 0]
    /\ today = periodSessions (t - day) pastWeek
    /\ pastWeek = periodSessions (t - week) pastMonth
    /\ (totalSessions today <= totalSessions pastWeek <= totalSessions pastMonth)%nat
    /\ (totalSessions pastMonth <= totalSessions ss)%nat
    /\ (Forall (fun s => 0 <= wordsWritten s) ss ->
        totalWords today <= totalWords pastWeek <= totalWords pastMonth)
    /\ (Forall (fun s => 0 <= timestamp s) ss -> periodSessions 0 ss = ss).
Proof.
  intros t ss today pastWeek pastMonth.
  assert (H1 : today = periodSessions (t - day) pastWeek).
  { subst today pastWeek. symmetry. apply periodSessions_nested.
    unfold week, day. lia. }
  assert (H2 : pastWeek = periodSessions (t - week) pastMonth).
  { subst pastWeek pastMonth. symmetry. apply periodSessions_nested.
    unfold month, week, day. lia. }
  split; [reflexivity|]. split; [exact H1|]. split; [exact H2|].
  split; [|split; [|split]].
  - unfold totalSessions.
    split; [rewrite H1 | rewrite H2]; apply periodSessions_length.
  - apply periodSessions_length.
  - intros Hw.
    assert (Hm : Forall (fun s => 0 <= wordsWritten s) pastMonth)
      by now apply Forall_periodSessions.
    assert (Hk : Forall (fun s => 0 <= wordsWritten s) pastWeek)
      by now apply Forall_periodSessions.
    split; [rewrite H1 | rewrite H2]; unfold periodSessions at 1;
      apply totalWords_filter_le; assumption.
  - apply periodSessions_all.
Qed.

Lemma stats_periods_nested_witness :
  periodSessions 0 [mkSessionRecord 2000 1 5 true; mkSessionRecord 6000 5 4 false]
  = [mkSessionRecord 2000 1 5 true; mkSessionRecord 6000 5 4 false].
Proof.
  destruct (stats_periods_nested 7000
              [mkSessionRecord 2000 1 5 true; mkSessionRecord 6000 5 4 false])
    as (_ & _ & _ & _ & _ & _ & H).
  apply H. repeat constructor; simpl; lia.
Defined.

(** X9: the list of recent sessions shows the last ten records, or all of
    them when there are fewer, newest first: read backwards it is the end
    of the history. A new record goes to the top and pushes the tenth
    out. *)
Theorem stats_recent_sessions :
  forall (ss : list SessionRecord) (r : SessionRecord),
    List.length (recentSessions ss) = Nat.min 10 (List.length ss)
    /\ (exists older, ss = older ++ rev (recentSessions ss))
    /\ recentSessions (ss ++ [r]) = r :: firstn 9 (recentSessions ss).
Proof.
  intros ss r. unfold recentSessions. split; [|split].
  - rewrite length_rev, length_skipn. lia.
  - exists (firstn (List.length ss - 10) ss).
    rewrite rev_involutive. symmetry. apply firstn_skipn.
  - rewrite length_app. simpl.
    rewrite skipn_app.
    replace (List.length ss + 1 - 10 - List.length ss)%nat with 0%nat by lia.
    simpl. rewrite rev_app_distr. simpl. f_equal.
    rewrite firstn_rev, length_skipn, skipn_skipn. f_equal. f_equal. lia.
Qed.

(** * Frames: what the callbacks leave alone *)

Lemma keepsHost_refl w : keepsHost w w.
Proof. repeat split. Qed.

Lemma keepsHost_trans w1 w2 w3 :
  keepsHost w1 w2 -> keepsHost w2 w3 -> keepsHost w1 w3.
Proof.
  unfold keepsHost. intros (-> & -> & -> & -> & ->) (-> & -> & -> & -> & ->).
  auto.
Qed.

Lemma keepsTarget_refl w : keepsTarget w w.
Proof. repeat split. Qed.

Lemma keepsTarget_trans w1 w2 w3 :
  keepsTarget w1 w2 -> keepsTarget w2 w3 -> keepsTarget w1 w3.
Proof.
  unfold keepsTarget. intros (-> & -> & -> & ->) (-> & -> & -> & ->). auto.
Qed.

Lemma stopSession_keepsHost done w : keepsHost w (stopSession done w).
Proof.
  unfold_stop. destruct (sessionActive w); world_cases w; repeat split.
Qed.

Lemma resetIdleWatchdog_frame w :
  keepsHost w (resetIdleWatchdog w) /\ keepsTarget w (resetIdleWatchdog w).
Proof.
  unfold resetIdleWatchdog, startWarningInterval, setInterval, setTimeout,
    setTimer, paintOverlay, clearTimer.
  world_cases w; repeat split.
Qed.

Lemma warningCheck_frame id threshold w :
  keepsHost w (warningCheck id threshold w)
  /\ keepsTarget w (warningCheck id threshold w).
Proof.
  unfold warningCheck, paintOverlay, clearTimer.
  destruct (sessionActive w); simpl; [|repeat split].
  destruct (_ <=? 0); [world_cases w; repeat split|].
  destruct (warningOverlay w); [|repeat split].
  destruct (_ <=? threshold); repeat split.
Qed.

Lemma createWarningOverlay_frame w :
  keepsHost w (createWarningOverlay w) /\ keepsTarget w (createWarningOverlay w).
Proof. unfold createWarningOverlay. destruct (warningOverlay w); repeat split. Qed.

Lemma removeWarningOverlay_frame w :
  keepsHost w (removeWarningOverlay w) /\ keepsTarget w (removeWarningOverlay w)
  /\ keepsSession w (removeWarningOverlay w).
Proof. unfold removeWarningOverlay. destruct (warningOverlay w); repeat split. Qed.

(** What [beginSession] stores. *)
Lemma beginSession_target f ed config w :
  let w' := beginSession f ed config w in
  activeFile w' = Some f /\ initialContent w' = getValue ed w
  /\ initialWordCount w' = countWords (getValue ed w)
  /\ sessionStartTime w' = now w /\ now w' = now w
  /\ editors w' = editors w /\ activeView w' = activeView w
  /\ settings w' = settings w.
Proof.
  unfold beginSession, setInterval, setTimer.
  destruct (configWordCountGoal config); simpl;
    match goal with
    | |- context [createWarningOverlay (resetIdleWatchdog ?x)] =>
        destruct (createWarningOverlay_frame (resetIdleWatchdog x))
          as ((-> & -> & -> & -> & ->) & (-> & -> & -> & _));
        destruct (resetIdleWatchdog_frame x)
          as ((-> & -> & -> & -> & ->) & (-> & -> & -> & _))
    end; repeat split.
Qed.

(** The clock and the start of the session after an event. *)
Lemma step_clock e w :
  now (step e w) = match e with
                   | EvClock dt => now w + Z.of_N dt
                   | _ => now w
                   end
  /\ sessionStartTime (step e w) = match e with
                                   | EvBegin _ _ _ => now w
                                   | _ => sessionStartTime w
                                   end.
Proof.
  destruct e as [ed text|leaf|id recover|dt| | |f ed config|s]; simpl.
  - unfold onEditorChange. destruct (sessionActive _); [|auto].
    destruct (resetIdleWatchdog_frame (setValue ed text w)) as ((-> & _ & _ & _ & ->) & _).
    auto.
  - unfold onActiveLeafChange. simpl.
    destruct (sessionActive w); [|auto].
    destruct leaf as [[view|]|]; auto.
    destruct (activeFile w), (file view); auto.
    destruct (negb _); auto.
    match goal with
    | |- context [stopSession ?d ?x] =>
        destruct (stopSession_keepsHost d x) as (-> & _ & _ & _ & ->)
    end. auto.
  - unfold fireTimer. destruct (timers w !! id) as [t|]; [|auto].
    set (w1 := if repeating t then w else clearTimer id w).
    assert (H1 : now w1 = now w /\ sessionStartTime w1 = sessionStartTime w)
      by (subst w1; destruct (repeating t); auto).
    destruct H1 as [<- <-]. clearbody w1.
    destruct (callback t) as [ed| |threshold]; simpl.
    + destruct (goalCheck_cases ed w1) as [-> | [_ ->]]; [auto|].
      unfold completeSession. destruct (sessionActive w1); simpl; [|auto].
      destruct (activeView w1) as [view|].
      * destruct (sameFile _ _); simpl;
          match goal with
          | |- context [stopSession ?d ?x] =>
              destruct (stopSession_keepsHost d x) as (-> & _ & _ & _ & ->)
          end; auto.
      * destruct (stopSession_keepsHost false w1) as (-> & _ & _ & _ & ->). auto.
    + unfold triggerPenalty. destruct (sessionActive w1); simpl; [|auto].
      destruct (activeView w1) as [view|]; [|auto].
      destruct (sameFile _ _); simpl; [|auto].
      destruct (practiceMode (settings w1) && recover); simpl;
        match goal with
        | |- context [stopSession ?d ?x] =>
            destruct (stopSession_keepsHost d x) as (-> & _ & _ & _ & ->)
        end; auto.
    + destruct (warningCheck_frame id threshold w1) as ((-> & _ & _ & _ & ->) & _).
      auto.
  - auto.
  - unfold stopCommand. destruct (sessionActive w); [|auto].
    destruct (stopSession_keepsHost true w) as (-> & _ & _ & _ & ->). auto.
  - unfold onunload.
    match goal with
    | |- context [removeWarningOverlay ?x] =>
        destruct (removeWarningOverlay_frame x) as ((-> & _ & _ & _ & ->) & _)
    end.
    destruct (sessionActive w); [|auto].
    destruct (stopSession_keepsHost false w) as (-> & _ & _ & _ & ->). auto.
  - destruct (beginSession_target f ed config w) as (_ & _ & _ & -> & -> & _). auto.
  - auto.
Qed.

(** * The history *)

(** An event leaves the history alone, or it is a timer that runs the goal
    check or the idle penalty of an active session with its target in
    front, and appends the record of that session. *)
Lemma step_records e w :
  sessions (step e w) = sessions w
  \/ exists id recover t view done,
       e = EvTimer id recover /\ timers w !! id = Some t
       /\ ((callback t = IdleTimeout /\ done = false)
           \/ ((exists ed, callback t = GoalCheck ed /\ goalReached ed w)
               /\ done = true))
       /\ sessionActive w = true /\ activeView w = Some view
       /\ sameFile (file view) (activeFile w) = true
       /\ sessions (step e w)
          = sessions w ++
              [ {| timestamp := now w;
                   durationSeconds := (now w - sessionStartTime w) / 1000;
                   wordsWritten := countWords (getValue (editor view) w);
                   completed := done |} ].
Proof.
  destruct e as [ed text|leaf|id recover|dt| | |f ed config|s]; simpl.
  - left. unfold onEditorChange. destruct (sessionActive _); [|reflexivity].
    now destruct (resetIdleWatchdog_keeps (setValue ed text w)) as (_ & -> & _).
  - left. unfold onActiveLeafChange. simpl.
    destruct (sessionActive w); [|reflexivity].
    destruct leaf as [[view|]|]; try reflexivity.
    destruct (activeFile w), (file view); try reflexivity.
    destruct (negb _); [|reflexivity]. now rewrite stopSession_sessions.
  - unfold fireTimer. destruct (timers w !! id) as [t|] eqn:Ht; [|now left].
    destruct (callback t) as [ed| |threshold] eqn:Hcb; simpl.
    + assert (Hg : goalCheck ed (if repeating t then w else clearTimer id w)
                   = (if repeating t then w else clearTimer id w)
                   \/ goalReached ed w
                      /\ goalCheck ed (if repeating t then w else clearTimer id w)
                         = completeSession (if repeating t then w else clearTimer id w)).
      { destruct (goalCheck_cases ed (if repeating t then w else clearTimer id w))
          as [H | [H1 H2]]; [now left|]. right. split; [|exact H2].
        destruct (repeating t); exact H1. }
      destruct Hg as [-> | [Hr ->]]; [left; destruct (repeating t); reflexivity|].
      destruct (sessionActive w) eqn:Ha.
      2:{ left. unfold completeSession. destruct (repeating t); simpl; now rewrite Ha. }
      destruct (activeView w) as [view|] eqn:Hv.
      2:{ left. rewrite completeSession_unreachable;
            [rewrite stopSession_sessions|..];
            destruct (repeating t); simpl; auto; unfold unreachable; simpl;
            now rewrite Hv. }
      destruct (sameFile (file view) (activeFile w)) eqn:Hs.
      2:{ left. rewrite completeSession_unreachable;
            [rewrite stopSession_sessions|..];
            destruct (repeating t); simpl; auto; unfold unreachable; simpl;
            now rewrite Hv. }
      right. exists id, recover, t, view, true.
      split; [reflexivity|]. split; [exact Ht|].
      split; [right; split; [exists ed; auto | reflexivity]|].
      split; [reflexivity|]. split; [reflexivity|]. split; [exact Hs|].
      rewrite (completeSession_record _ view); destruct (repeating t); auto.
    + destruct (sessionActive w) eqn:Ha.
      2:{ left. unfold triggerPenalty. destruct (repeating t); simpl; now rewrite Ha. }
      destruct (activeView w) as [view|] eqn:Hv.
      2:{ left. rewrite triggerPenalty_unreachable;
            destruct (repeating t); simpl; auto; unfold unreachable; simpl;
            now rewrite Hv. }
      destruct (sameFile (file view) (activeFile w)) eqn:Hs.
      2:{ left. rewrite triggerPenalty_unreachable;
            destruct (repeating t); simpl; auto; unfold unreachable; simpl;
            now rewrite Hv. }
      right. exists id, recover, t, view, false.
      split; [reflexivity|]. split; [exact Ht|].
      split; [left; auto|].
      split; [reflexivity|]. split; [reflexivity|]. split; [exact Hs|].
      rewrite (triggerPenalty_record recover _ view); destruct (repeating t); auto.
    + left.
      match goal with
      | |- context [warningCheck id threshold ?x] =>
          destruct (warningCheck_keeps id threshold x) as (_ & -> & _)
      end.
      destruct (repeating t); reflexivity.
  - now left.
  - left. unfold stopCommand. destruct (sessionActive w); [|reflexivity].
    apply stopSession_sessions.
  - left. unfold onunload.
    match goal with
    | |- context [removeWarningOverlay ?x] =>
        destruct (removeWarningOverlay_frame x) as (_ & _ & (_ & -> & _))
    end.
    destruct (sessionActive w); [|reflexivity]. apply stopSession_sessions.
  - left. apply beginSession_sessions.
  - now left.
Qed.

Lemma Sorted_snoc (l : list Z) (y : Z) :
  Sorted Z.le l -> Forall (fun x => x <= y) l -> Sorted Z.le (l ++ [y]).
Proof.
  induction 1 as [|x l Hs IH Hd]; intros Hall; simpl.
  - repeat constructor.
  - apply Forall_cons in Hall as [Hx Hl]. constructor; [auto|].
    destruct l as [|x' l]; simpl; constructor; [exact Hx|].
    now apply HdRel_inv in Hd.
Qed.

Lemma recordOk_mono t t' r : t <= t' -> recordOk t r -> recordOk t' r.
Proof. unfold recordOk. lia. Qed.

Lemma step_historyOk e w : historyOk w -> historyOk (step e w).
Proof.
  intros (Hstart & Hall & Hsorted).
  destruct (step_clock e w) as [Hnow Hst].
  assert (Hle : now w <= now (step e w)) by (rewrite Hnow; destruct e; lia).
  unfold historyOk. split.
  - rewrite Hst. destruct e; lia.
  - destruct (step_records e w) as [-> | (id & recover & t & view & done & -> & _ & _
                                          & _ & _ & _ & ->)].
    + split; [|exact Hsorted].
      eapply Forall_impl; [exact Hall|]. intros r. now apply recordOk_mono.
    + simpl in Hnow. split.
      * apply Forall_app. split.
        -- eapply Forall_impl; [exact Hall|]. intros r. now apply recordOk_mono.
        -- constructor; [|constructor]. unfold recordOk. simpl.
           split; [lia|]. split; [apply Z.div_pos; lia|].
           unfold countWords. lia.
      * rewrite map_app. simpl. apply Sorted_snoc; [exact Hsorted|].
        apply Forall_map. eapply Forall_impl; [exact Hall|].
        intros r. unfold recordOk. simpl. lia.
Qed.

Lemma run_historyOk evs w : historyOk w -> historyOk (run evs w).
Proof.
  revert w. induction evs as [|e evs IH]; intros w H; simpl; [exact H|].
  apply IH. now apply step_historyOk.
Qed.

Lemma hostStep_historyOk h w :
  match h with HostPlugin _ => True | HostSetClock t => now w <= t end ->
  historyOk w -> historyOk (hostStep h w).
Proof.
  destruct h as [e|t]; simpl; intros Hle H; [now apply step_historyOk|].
  destruct H as (Hstart & Hall & Hsorted). unfold historyOk. simpl.
  split; [lia|]. split; [|exact Hsorted].
  eapply Forall_impl; [exact Hall|]. intros r. now apply recordOk_mono.
Qed.

Lemma hostRun_historyOk hs w :
  clockNeverBack hs w = true -> historyOk w -> historyOk (hostRun hs w).
Proof.
  revert w. induction hs as [|h hs IH]; intros w Hc H; simpl; [exact H|].
  simpl in Hc. apply andb_prop in Hc as [Hh Hc].
  apply IH; [exact Hc|]. apply hostStep_historyOk; [|exact H].
  destruct h; [exact I | now apply Z.leb_le].
Qed.

Lemma run_app evs1 evs2 w : run (evs1 ++ evs2) w = run evs2 (run evs1 w).
Proof. unfold run. apply fold_left_app. Qed.

Lemma run_sessions_prefix evs w :
  sessions w `prefix_of` sessions (run evs w)
  /\ (List.length (sessions (run evs w)) <= List.length (sessions w) + List.length evs)%nat.
Proof.
  revert w. induction evs as [|e evs IH]; intros w; simpl.
  - split; [reflexivity | lia].
  - destruct (IH (step e w)) as [H1 H2].
    destruct (step_records e w)
      as [H | (? & ? & ? & ? & ? & _ & _ & _ & _ & _ & _ & H)];
      rewrite H in H1, H2.
    + split; [exact H1 | lia].
    + split; [etransitivity; [|exact H1]; now apply prefix_app_r|].
      rewrite length_app in H2. simpl in H2. lia.
Qed.

(** * Timers and handles *)

Lemma timersOk_same w w' :
  timers w' = timers w -> nextTimerId w' = nextTimerId w ->
  sessionInterval w' = sessionInterval w ->
  idleWatchdogTimeout w' = idleWatchdogTimeout w ->
  statusBarInterval w' = statusBarInterval w ->
  sessionActive w' = sessionActive w ->
  timersOk w -> timersOk w'.
Proof. unfold timersOk. intros -> -> -> -> -> ->. auto. Qed.

Lemma clearTimer_timersOk id w :
  timersOk w ->
  (forall t ed, timers w !! id = Some t -> callback t <> GoalCheck ed) ->
  timersOk (clearTimer id w).
Proof.
  unfold timersOk at 1. unfold clearTimer.
  intros (F & GO & IO & GK & IK & GA & ID & SB) Hng.
  split_timersOk; simpl; auto.
  - intros i Hi. apply lookup_delete_None. auto.
  - intros i t ed Hl. apply lookup_delete_Some in Hl as [_ Hl]. eauto.
  - intros i t Hl. apply lookup_delete_Some in Hl as [_ Hl]. eauto.
  - intros i t Hs Hl. apply lookup_delete_Some in Hl as [_ Hl]. eauto.
  - intros i t Hs Hl. apply lookup_delete_Some in Hl as [_ Hl]. eauto.
  - intros Ha. destruct (GA Ha) as (i & ed & Hs & Hl). exists i, ed.
    split; [exact Hs|]. rewrite lookup_delete_ne; [exact Hl|].
    intros ->. now apply (Hng _ ed Hl).
Qed.

Lemma stopSession_timersOk done w : timersOk w -> timersOk (stopSession done w).
Proof.
  intros H. destruct (sessionActive w) eqn:Ha.
  2:{ unfold stopSession. now rewrite Ha. }
  destruct H as (F & GO & IO & GK & IK & GA & ID & SB).
  split_timersOk.
  all: destruct (stopSession_handles done w Ha) as (E1 & E2 & E3).
  all: rewrite ?E1, ?E2, ?E3.
  all: rewrite ?stopSession_inactive, ?stopSession_timers by assumption.
  all: rewrite ?SB; simpl.
  all: try discriminate; auto.
  all: assert (Hnext : nextTimerId (stopSession done w) = nextTimerId w)
         by (unfold_stop; rewrite Ha; clear; world_cases w; reflexivity).
  all: rewrite ?Hnext.
  all: assert (Hsub : forall i t,
            from_option delete id (idleWatchdogTimeout w)
              (from_option delete id (sessionInterval w) (timers w)) !! i = Some t ->
            timers w !! i = Some t /\ sessionInterval w <> Some i
            /\ idleWatchdogTimeout w <> Some i)
         by (intros i t; destruct (idleWatchdogTimeout w), (sessionInterval w); simpl;
             rewrite ?lookup_delete_Some; intuition congruence).
  - intros i Hi.
    destruct (from_option delete id _ _ !! i) as [t|] eqn:E; [|reflexivity].
    apply Hsub in E as [E _]. rewrite F in E by assumption. discriminate.
  - intros i t ed Hl Hcb. apply Hsub in Hl as (Hl & Hn & _).
    exfalso. apply Hn. eauto.
  - intros i t Hl Hcb. apply Hsub in Hl as (Hl & _ & Hn).
    exfalso. apply Hn. eauto.
Qed.
Lemma resetIdleWatchdog_timersOk w :
  timersOk w -> sessionActive w = true -> timersOk (resetIdleWatchdog w).
Proof.
  intros (F & GO & IO & GK & IK & GA & ID & SB) Ha.
  destruct (GA Ha) as (g & ged & Hg & Hgl).
  assert (Hglt : (g < nextTimerId w)%nat).
  { destruct (Nat.lt_ge_cases g (nextTimerId w)) as [|Hge]; [assumption|].
    rewrite (F g Hge) in Hgl. discriminate. }
  set (tm := from_option delete id (idleWatchdogTimeout w) (timers w)).
  assert (Htm : forall i t, tm !! i = Some t ->
                 timers w !! i = Some t /\ idleWatchdogTimeout w <> Some i).
  { subst tm. intros i t. destruct (idleWatchdogTimeout w); simpl;
      rewrite ?lookup_delete_Some; intuition congruence. }
  assert (Htg : tm !! g = Some (mkTimer true 1000 (GoalCheck ged))).
  { subst tm. destruct (idleWatchdogTimeout w) as [n|] eqn:En; simpl; [|exact Hgl].
    rewrite lookup_delete_ne; [exact Hgl|]. intros ->.
    destruct (IK g _ eq_refl Hgl) as [H _]. discriminate. }
  assert (Hshape :
    let w' := resetIdleWatchdog w in
    timers w' = <[S (nextTimerId w) :=
                    mkTimer true 50
                      (WarningCheck (warningThresholdSeconds (settings w) * 1000))]>
                  (<[nextTimerId w :=
                       mkTimer false (idleTimeoutSeconds (settings w) * 1000) IdleTimeout]> tm)
    /\ nextTimerId w' = S (S (nextTimerId w))
    /\ sessionInterval w' = sessionInterval w
    /\ idleWatchdogTimeout w' = Some (nextTimerId w)
    /\ statusBarInterval w' = statusBarInterval w
    /\ sessionActive w' = sessionActive w).
  { subst tm. unfold resetIdleWatchdog, startWarningInterval, setInterval,
      setTimeout, setTimer, paintOverlay, clearTimer.
    clear. world_cases w; repeat split. }
  destruct Hshape as (E1 & E2 & E3 & E4 & E5 & E6).
  split_timersOk.
  all: rewrite ?E1, ?E2, ?E3, ?E4, ?E5, ?E6; auto.
  - intros i Hi. rewrite !lookup_insert_ne by lia.
    destruct (tm !! i) as [t|] eqn:E; [|reflexivity].
    apply Htm in E as [E _]. rewrite F in E by lia. discriminate.
  - intros i t ed Hl Hcb.
    apply lookup_insert_Some in Hl as [[<- <-] | [_ Hl]]; [discriminate|].
    apply lookup_insert_Some in Hl as [[<- <-] | [_ Hl]]; [discriminate|].
    apply Htm in Hl as [Hl _]. eauto.
  - intros i t Hl Hcb.
    apply lookup_insert_Some in Hl as [[<- <-] | [_ Hl]]; [discriminate|].
    apply lookup_insert_Some in Hl as [[<- <-] | [_ Hl]]; [reflexivity|].
    apply Htm in Hl as [Hl Hn]. exfalso. apply Hn. eauto.
  - intros i t Hs Hl. rewrite Hg in Hs. injection Hs as <-.
    rewrite !lookup_insert_ne in Hl by lia. rewrite Htg in Hl.
    injection Hl as <-. eauto.
  - intros i t [= <-] Hl. rewrite lookup_insert_ne, lookup_insert_eq in Hl by lia.
    injection Hl as <-. auto.
  - intros _. exists g, ged. split; [exact Hg|].
    rewrite !lookup_insert_ne by lia. exact Htg.
  - intros Hf. congruence.
Qed.

Lemma createWarningOverlay_timersOk w :
  timersOk w -> timersOk (createWarningOverlay w).
Proof.
  intros H. unfold createWarningOverlay.
  destruct (warningOverlay w); [exact H | same_by timersOk_same H].
Qed.

Lemma removeWarningOverlay_timersOk w :
  timersOk w -> timersOk (removeWarningOverlay w).
Proof.
  intros H. unfold removeWarningOverlay.
  destruct (warningOverlay w); [same_by timersOk_same H | exact H].
Qed.

Lemma beginSession_timersOk f ed config w :
  timersOk w -> sessionActive w = false -> timersOk (beginSession f ed config w).
Proof.
  intros (F & GO & IO & GK & IK & GA & ID & SB) Ha.
  destruct (ID Ha) as [Hsi Hiw].
  assert (Hshape : exists w2,
    beginSession f ed config w = createWarningOverlay (resetIdleWatchdog w2)
    /\ timers w2 = <[nextTimerId w := mkTimer true 1000 (GoalCheck ed)]> (timers w)
    /\ nextTimerId w2 = S (nextTimerId w)
    /\ sessionInterval w2 = Some (nextTimerId w)
    /\ idleWatchdogTimeout w2 = idleWatchdogTimeout w
    /\ statusBarInterval w2 = statusBarInterval w
    /\ sessionActive w2 = true).
  { unfold beginSession, setInterval, setTimer.
    destruct (configWordCountGoal config); simpl;
      match goal with
      | |- exists w2, createWarningOverlay (resetIdleWatchdog ?x) = _ /\ _ =>
          exists x
      end; repeat split. }
  destruct Hshape as (w2 & -> & E1 & E2 & E3 & E4 & E5 & E6).
  assert (H2 : timersOk w2).
  { split_timersOk.
    all: rewrite ?E1, ?E2, ?E3, ?E4, ?E5, ?E6, ?Hiw; auto; try discriminate.
    - intros i Hi. rewrite lookup_insert_ne by lia. apply F. lia.
    - intros i t ed' Hl Hcb.
      apply lookup_insert_Some in Hl as [[<- <-] | [_ Hl]]; [reflexivity|].
      specialize (GO i t ed' Hl Hcb). congruence.
    - intros i t Hl Hcb.
      apply lookup_insert_Some in Hl as [[<- <-] | [_ Hl]]; [discriminate|].
      specialize (IO i t Hl Hcb). congruence.
    - intros i t [= <-] Hl. rewrite lookup_insert_eq in Hl.
      injection Hl as <-. eauto.
    - intros _. exists (nextTimerId w), ed. split; [reflexivity|].
      apply lookup_insert_eq. }
  apply createWarningOverlay_timersOk, resetIdleWatchdog_timersOk; assumption.
Qed.

Lemma completeSession_timersOk w : timersOk w -> timersOk (completeSession w).
Proof.
  intros H. unfold completeSession. destruct (sessionActive w); simpl; [|exact H].
  destruct (activeView w) as [view|]; [|now apply stopSession_timersOk].
  destruct (sameFile _ _); simpl; apply stopSession_timersOk; [|exact H].
  same_by timersOk_same H.
Qed.

Lemma triggerPenalty_timersOk recover w :
  timersOk w -> timersOk (triggerPenalty recover w).
Proof.
  intros H. unfold triggerPenalty. destruct (sessionActive w); simpl; [|exact H].
  destruct (activeView w) as [view|]; [|exact H].
  destruct (sameFile _ _); simpl; [|exact H].
  assert (Hs : timersOk
                 (stopSession false
                    (recordSession (countWords (getValue (editor view) w))
                       ((now w - sessionStartTime w) / 1000) false
                       (setValue (editor view)
                          (applyPenalty (penaltyType (settings w))
                             (getValue (editor view) w)) w)))).
  { apply stopSession_timersOk. same_by timersOk_same H. }
  destruct (practiceMode (settings w) && recover); [|exact Hs].
  same_by timersOk_same Hs.
Qed.

Lemma paintOverlay_timersOk c w : timersOk w -> timersOk (paintOverlay c w).
Proof.
  intros H. unfold paintOverlay. destruct (warningOverlay w); [|exact H].
  same_by timersOk_same H.
Qed.

Lemma warningCheck_timersOk id threshold w :
  timersOk w ->
  (forall t ed, timers w !! id = Some t -> callback t <> GoalCheck ed) ->
  timersOk (warningCheck id threshold w).
Proof.
  intros H Hng. unfold warningCheck.
  destruct (sessionActive w); simpl; [|now apply clearTimer_timersOk].
  destruct (_ <=? 0); [apply paintOverlay_timersOk; now apply clearTimer_timersOk|].
  destruct (warningOverlay w) eqn:E; [|exact H].
  destruct (_ <=? threshold); now apply paintOverlay_timersOk.
Qed.

Lemma fireTimer_timersOk id recover w :
  timersOk w -> timersOk (fireTimer id recover w).
Proof.
  intros H. unfold fireTimer. destruct (timers w !! id) as [t|] eqn:Ht; [|exact H].
  pose proof H as (F & GO & IO & GK & IK & GA & ID & SB).
  destruct (callback t) as [ed| |threshold] eqn:Hcb; simpl.
  - destruct (GK id t (GO id t ed Ht Hcb) Ht) as [ed' ->]. simpl.
    destruct (goalCheck_cases ed w) as [-> | [_ ->]]; [exact H|].
    now apply completeSession_timersOk.
  - destruct (IK id t (IO id t Ht Hcb) Ht) as [-> _].
    apply triggerPenalty_timersOk, clearTimer_timersOk; [exact H|].
    intros t' ed' Ht'. rewrite Ht in Ht'. injection Ht' as <-. congruence.
  - apply warningCheck_timersOk.
    + destruct (repeating t); [exact H|]. apply clearTimer_timersOk; [exact H|].
      intros t' ed' Ht'. rewrite Ht in Ht'. injection Ht' as <-. congruence.
    + intros t' ed'. destruct (repeating t); simpl.
      * rewrite Ht. intros [= <-]. congruence.
      * rewrite lookup_delete_eq. discriminate.
Qed.

Lemma step_timersOk e w :
  timersOk w -> (isBegin e = true -> sessionActive w = false) ->
  timersOk (step e w).
Proof.
  intros H Hb.
  destruct e as [ed text|leaf|id recover|dt| | |f ed config|s]; simpl.
  - assert (H1 : timersOk (setValue ed text w)) by same_by timersOk_same H.
    unfold onEditorChange. destruct (sessionActive (setValue ed text w)) eqn:E;
      [|exact H1].
    now apply resetIdleWatchdog_timersOk.
  - assert (H1 : timersOk (set_activeView (viewOfLeaf leaf) w)) by same_by timersOk_same H.
    unfold onActiveLeafChange.
    destruct (sessionActive _); [|exact H1].
    destruct leaf as [[view|]|]; try exact H1.
    destruct (activeFile _), (file view); try exact H1.
    destruct (negb _); [|exact H1]. now apply stopSession_timersOk.
  - now apply fireTimer_timersOk.
  - same_by timersOk_same H.
  - unfold stopCommand. destruct (sessionActive w); [|exact H].
    now apply stopSession_timersOk.
  - unfold onunload.
    apply removeWarningOverlay_timersOk.
    destruct (sessionActive w); [now apply stopSession_timersOk | exact H].
  - apply beginSession_timersOk; auto.
  - same_by timersOk_same H.
Qed.

Lemma run_timersOk evs w :
  timersOk w -> startsWhenIdle evs w = true -> timersOk (run evs w).
Proof.
  revert w. induction evs as [|e evs IH]; intros w H Hs; simpl in *; [exact H|].
  apply andb_prop in Hs as [He Hs]. apply IH; [|exact Hs].
  apply step_timersOk; [exact H|]. intros Hb. rewrite Hb in He.
  now apply negb_true_iff in He.
Qed.

Lemma initialWorld_timersOk s t view eds : timersOk (initialWorld s t view eds).
Proof.
  split_timersOk; simpl; auto; try discriminate.
Qed.

(** In a world with sound timers and no session, only warning polls are
    pending. *)
Lemma timersOk_idle_polls w :
  timersOk w -> sessionActive w = false ->
  forall id t, timers w !! id = Some t ->
    exists threshold, callback t = WarningCheck threshold.
Proof.
  intros (F & GO & IO & GK & IK & GA & ID & SB) Ha id t Ht.
  destruct (ID Ha) as [Hsi Hiw].
  destruct (callback t) as [ed| |threshold] eqn:Hcb; [| |eauto].
  - specialize (GO id t ed Ht Hcb). congruence.
  - specialize (IO id t Ht Hcb). congruence.
Qed.

(** * What an idle plugin holds *)








(** * What a session keeps *)

Lemma completeSession_inactive w : sessionActive (completeSession w) = false.
Proof.
  unfold completeSession. destruct (sessionActive w) eqn:E; simpl; [|exact E].
  destruct (activeView w) as [view|]; [|apply stopSession_inactive].
  destruct (sameFile _ _); simpl; apply stopSession_inactive.
Qed.

Lemma step_keepsTarget e w :
  isBegin e = false -> sessionActive (step e w) = true ->
  keepsTarget w (step e w).
Proof.
  destruct e as [ed text|leaf|id recover|dt| | |f ed config|s]; simpl;
    intros Hb; try discriminate.
  - unfold onEditorChange.
    destruct (sessionActive (setValue ed text w)); [|repeat split].
    intros _.
    apply (keepsTarget_trans w (setValue ed text w));
      [repeat split | apply (proj2 (resetIdleWatchdog_frame _))].
  - unfold onActiveLeafChange. simpl.
    destruct (sessionActive w); [|repeat split].
    destruct leaf as [[view|]|]; try (repeat split; fail).
    destruct (activeFile w), (file view); try (repeat split; fail).
    destruct (negb _); [|repeat split].
    rewrite stopSession_inactive. discriminate.
  - unfold fireTimer. destruct (timers w !! id) as [t|]; [|repeat split].
    assert (H1 : keepsTarget w (if repeating t then w else clearTimer id w))
      by (destruct (repeating t); repeat split).
    destruct (callback t) as [ed| |threshold]; simpl.
    + destruct (goalCheck_cases ed (if repeating t then w else clearTimer id w))
        as [-> | [_ ->]]; [auto|].
      rewrite completeSession_inactive. discriminate.
    + destruct (triggerPenalty_cases recover (if repeating t then w else clearTimer id w))
        as [-> | [(_ & -> & _) _]]; [auto | discriminate].
    + intros _. eapply keepsTarget_trans;
        [exact H1 | apply (proj2 (warningCheck_frame _ _ _))].
  - repeat split.
  - unfold stopCommand. destruct (sessionActive w); [|repeat split].
    rewrite stopSession_inactive. discriminate.
  - unfold onunload.
    match goal with
    | |- context [removeWarningOverlay ?x] =>
        destruct (removeWarningOverlay_frame x) as (_ & Ht & (-> & _))
    end.
    destruct (sessionActive w); [rewrite stopSession_inactive; discriminate|].
    intros _. exact Ht.
  - repeat split.
Qed.

Lemma run_keepsTarget evs w :
  noBegin evs = true -> sessionActive (run evs w) = true ->
  keepsTarget w (run evs w).
Proof.
  revert w. induction evs as [|e evs IH]; intros w Hb Hw; simpl in *;
    [apply keepsTarget_refl|].
  apply andb_prop in Hb as [He Hb]. apply negb_true_iff in He.
  destruct (sessionActive (step e w)) eqn:Ha.
  - apply (keepsTarget_trans w (step e w));
      [apply step_keepsTarget; assumption | apply IH; assumption].
  - destruct (run_inactive evs (step e w) Hb Ha) as [H _].
    change (sessionActive (run evs (step e w)) = true) in Hw. congruence.
Qed.

(** * The idle penalty *)

Lemma triggerPenalty_outcome recover w view :
  sessionActive w = true -> activeView w = Some view ->
  sameFile (file view) (activeFile w) = true ->
  let w' := triggerPenalty recover w in
  sessionActive w' = false
  /\ getValue (editor view) w'
     = (if practiceMode (settings w) && recover
        then initialContent w
        else applyPenalty (penaltyType (settings w)) (getValue (editor view) w))
  /\ (forall other, other <> editor view -> editors w' !! other = editors w !! other).
Proof.
  intros Ha Hv Hs. unfold triggerPenalty. rewrite Ha, Hv, Hs. simpl.
  unfold getValue.
  destruct (practiceMode (settings w) && recover); simpl;
    rewrite ?stopSession_inactive, ?stopSession_editors; simpl;
    rewrite ?lookup_insert_eq; simpl;
    (split; [reflexivity|]; split; [reflexivity|]);
    intros other Hne; rewrite ?lookup_insert_ne by congruence; reflexivity.
Qed.

(** * Typing *)

Lemma resetIdleWatchdog_shape w :
  let w' := resetIdleWatchdog w in
  timers w'
  = <[S (nextTimerId w) :=
        mkTimer true 50 (WarningCheck (warningThresholdSeconds (settings w) * 1000))]>
      (<[nextTimerId w :=
           mkTimer false (idleTimeoutSeconds (settings w) * 1000) IdleTimeout]>
         (from_option delete id (idleWatchdogTimeout w) (timers w)))
  /\ nextTimerId w' = S (S (nextTimerId w))
  /\ idleWatchdogTimeout w' = Some (nextTimerId w)
  /\ lastActivityTime w' = now w
  /\ warningOverlay w' = (fun _ => mkOverlay None) <$> warningOverlay w.
Proof.
  unfold resetIdleWatchdog, startWarningInterval, setInterval,
    setTimeout, setTimer, paintOverlay, clearTimer.
  world_cases w; repeat split.
Qed.

(** * Status bar *)

Lemma idle_seconds_left (idle idleTime : Z) :
  0 < idle * 1000 - idleTime ->
  let left := Z.max 0 (idle - idleTime / 1000) in
  1000 * (left - 1) < idle * 1000 - idleTime <= 1000 * left.
Proof.
  intros H left. subst left.
  pose proof (Z.div_mod idleTime 1000 ltac:(lia)).
  pose proof (Z.mod_pos_bound idleTime 1000 ltac:(lia)).
  lia.
Qed.

(** X10: the history only grows, by at most one record per event, and
    nothing that is in it changes. The only events that add a record are
    timers that run the goal check or the idle penalty of an active session:
    editing, switching the leaf, the stop command, unloading, starting a
    session, the clock and the settings never do. *)
Theorem history_is_append_only :
  (forall (evs : list Event) (w : World),
     sessions w `prefix_of` sessions (run evs w)
     /\ (List.length (sessions (run evs w))
         <= List.length (sessions w) + List.length evs)%nat)
  /\ (forall (e : Event) (w : World),
        sessions (step e w) <> sessions w ->
        sessionActive w = true
        /\ exists id recover t,
             e = EvTimer id recover /\ timers w !! id = Some t
             /\ (callback t = IdleTimeout \/ exists ed, callback t = GoalCheck ed)).
Proof.
  split; [exact run_sessions_prefix|].
  intros e w Hne.
  destruct (step_records e w)
    as [H | (id & recover & t & view & done & He & Ht & Hcb & Ha & _)];
    [contradiction|].
  split; [exact Ha|]. exists id, recover, t.
  split; [exact He|]. split; [exact Ht|].
  destruct Hcb as [[H _] | [(ed & H & _) _]]; eauto.
Qed.

Lemma history_is_append_only_witness :
  let w := step (EvEdit 0 (str "a b c d e")) scenarioStart in
  sessionActive w = true
  /\ exists id recover t,
       EvTimer 1 false = EvTimer id recover /\ timers w !! id = Some t
       /\ (callback t = IdleTimeout \/ exists ed, callback t = GoalCheck ed).
Proof.
  destruct history_is_append_only as [_ H].
  apply (H (EvTimer 1 false) (step (EvEdit 0 (str "a b c d e")) scenarioStart)).
  vm_compute. discriminate.
Defined.

(** X11: the plugin is loaded at a clock that is not negative, with a
    saved history (if any) whose records have time stamps between 0 and
    that clock, in their order, and durations and word counts that are not
    negative. Then, whatever happens in the plugin, as long as the system
    time is never set back: every record of the history has a time stamp
    between 0 and now, a duration and a word count that are not negative;
    the history is in the order of its time stamps; and the period All Time
    of the statistics shows all of it. The assumption on the clock is
    needed: a session begun at 1000 and completed after the time was set
    back to 0 is recorded with the duration -1. *)
Theorem history_records_are_sound :
  (forall (s : Settings) (t : Z) (view : option MarkdownView)
          (eds : gmap nat jsstring) (saved : option (list SessionRecord))
          (hs : list HostEvent),
     0 <= t ->
     Forall (fun r => 0 <= timestamp r <= t /\ 0 <= durationSeconds r
                      /\ 0 <= wordsWritten r) (default [] saved) ->
     Sorted Z.le (List.map timestamp (default [] saved)) ->
     clockNeverBack hs (loadSessions saved (initialWorld s t view eds)) = true ->
     let w := hostRun hs (loadSessions saved (initialWorld s t view eds)) in
     Forall (fun r => 0 <= timestamp r <= now w /\ 0 <= durationSeconds r
                      /\ 0 <= wordsWritten r) (sessions w)
     /\ Sorted Z.le (List.map timestamp (sessions w))
     /\ periodSessions 0 (sessions w) = sessions w)
  /\ (let w := hostRun [HostPlugin (EvBegin note 0 (mkSessionConfig None (Some 2)));
                        HostPlugin (EvEdit 0 (str "a b c d e"));
                        HostSetClock 0;
                        HostPlugin (EvTimer 1 false)]
                 (loadSessions None
                    (initialWorld DEFAULT_SETTINGS 1000 (Some noteView)
                       {[ 0%nat := str "a b c" ]})) in
      List.map durationSeconds (sessions w) = [-1]).
Proof.
  split; [|vm_compute; reflexivity].
  intros s t view eds saved hs Ht Hsaved Hsorted0 Hclock w.
  assert (H : historyOk w).
  { apply hostRun_historyOk; [exact Hclock|]. unfold historyOk. simpl.
    split; [lia|]. split; [exact Hsaved | exact Hsorted0]. }
  destruct H as (_ & Hall & Hsorted).
  split; [exact Hall|]. split; [exact Hsorted|].
  apply periodSessions_all. eapply Forall_impl; [exact Hall|].
  intros r Hr. unfold recordOk in Hr. lia.
Qed.

Lemma history_records_are_sound_witness :
  let w := hostRun [HostPlugin (EvBegin note 0 (mkSessionConfig None (Some 2)));
                    HostPlugin (EvEdit 0 (str "a b c d e"));
                    HostSetClock 2000;
                    HostPlugin (EvTimer 1 false)]
             (loadSessions (Some [mkSessionRecord 500 60 100 true])
                (initialWorld DEFAULT_SETTINGS 1000 (Some noteView)
                   {[ 0%nat := str "a b c" ]})) in
  periodSessions 0 (sessions w) = sessions w.
Proof.
  destruct history_records_are_sound as [H _].
  destruct (H DEFAULT_SETTINGS 1000 (Some noteView) {[ 0%nat := str "a b c" ]}
              (Some [mkSessionRecord 500 60 100 true])
              [HostPlugin (EvBegin note 0 (mkSessionConfig None (Some 2)));
               HostPlugin (EvEdit 0 (str "a b c d e"));
               HostSetClock 2000;
               HostPlugin (EvTimer 1 false)])
    as (_ & _ & H3);
    [lia
    | repeat constructor; simpl; lia
    | repeat constructor
    | vm_compute; reflexivity
    | exact H3].
Defined.

(** X12: when sessions are only begun while none is active, the timer
    table and the handles of the plugin always agree. Every pending goal
    check is the one stored in [sessionInterval] and every pending idle
    timeout the one stored in [idleWatchdogTimeout], so there is at most one
    of each; an active session has its goal check pending, every second;
    and when no session is active both handles are empty and the only
    timers left are warning polls. *)
Theorem timers_and_handles_agree :
  forall (s : Settings) (t : Z) (view : option MarkdownView)
         (eds : gmap nat jsstring) (evs : list Event),
    startsWhenIdle evs (initialWorld s t view eds) = true ->
    let w := run evs (initialWorld s t view eds) in
    (forall id tm ed,
       timers w !! id = Some tm -> callback tm = GoalCheck ed ->
       sessionInterval w = Some id)
    /\ (forall id tm,
          timers w !! id = Some tm -> callback tm = IdleTimeout ->
          idleWatchdogTimeout w = Some id)
    /\ (sessionActive w = true ->
        exists id ed, sessionInterval w = Some id
          /\ timers w !! id = Some (mkTimer true 1000 (GoalCheck ed)))
    /\ (sessionActive w = false ->
        sessionInterval w = None /\ idleWatchdogTimeout w = None
        /\ forall id tm, timers w !! id = Some tm ->
             exists threshold, callback tm = WarningCheck threshold).
Proof.
  intros s t view eds evs Hs w.
  assert (H : timersOk w)
    by (apply run_timersOk; [apply initialWorld_timersOk | exact Hs]).
  pose proof H as (F & GO & IO & GK & IK & GA & ID & SB).
  split; [exact GO|]. split; [exact IO|]. split; [exact GA|].
  intros Ha. destruct (ID Ha) as [H1 H2].
  split; [exact H1|]. split; [exact H2|].
  now apply timersOk_idle_polls.
Qed.

Lemma timers_and_handles_agree_witness :
  let w := run [EvBegin note 0 (mkSessionConfig None (Some 2));
                EvEdit 0 (str "a b c d e"); EvTimer 1 false]
             (initialWorld DEFAULT_SETTINGS 1000 (Some noteView)
                {[ 0%nat := str "a b c" ]}) in
  sessionInterval w = None /\ idleWatchdogTimeout w = None
  /\ forall id tm, timers w !! id = Some tm ->
       exists threshold, callback tm = WarningCheck threshold.
Proof.
  destruct (timers_and_handles_agree DEFAULT_SETTINGS 1000 (Some noteView)
              {[ 0%nat := str "a b c" ]}
              [EvBegin note 0 (mkSessionConfig None (Some 2));
               EvEdit 0 (str "a b c d e"); EvTimer 1 false])
    as (_ & _ & _ & H); [vm_compute; reflexivity|].
  apply H. vm_compute. reflexivity.
Defined.



(** X14: the idle timeout of an active session whose target is in front
    ends the session with one more record, not a completed one. Unless the
    user recovers in practice mode, the text of the target becomes
    [applyPenalty] of what it was, strictly shorter when it was not empty;
    when the user recovers it becomes the content saved at the start. No
    other editor changes. *)
Theorem idle_penalty_outcome :
  forall (id : nat) (recover : bool) (t : Timer) (view : MarkdownView) (w : World),
    timers w !! id = Some t -> callback t = IdleTimeout ->
    sessionActive w = true -> activeView w = Some view ->
    sameFile (file view) (activeFile w) = true ->
    let w' := step (EvTimer id recover) w in
    let content := getValue (editor view) w in
    sessionActive w' = false
    /\ (exists r, sessions w' = sessions w ++ [r] /\ completed r = false)
    /\ (practiceMode (settings w) && recover = false ->
        getValue (editor view) w' = applyPenalty (penaltyType (settings w)) content
        /\ (content <> [] ->
            (List.length (getValue (editor view) w') < List.length content)%nat))
    /\ (practiceMode (settings w) && recover = true ->
        getValue (editor view) w' = initialContent w)
    /\ (forall other, other <> editor view ->
        editors w' !! other = editors w !! other).
Proof.
  intros id recover t view w Ht Hcb Ha Hv Hs. simpl.
  unfold fireTimer. rewrite Ht, Hcb. simpl.
  set (w1 := if repeating t then w else clearTimer id w).
  assert (E : sessionActive w1 = true /\ activeView w1 = Some view
              /\ sameFile (file view) (activeFile w1) = true
              /\ sessions w1 = sessions w /\ editors w1 = editors w
              /\ settings w1 = settings w /\ initialContent w1 = initialContent w
              /\ now w1 = now w /\ sessionStartTime w1 = sessionStartTime w)
    by (subst w1; destruct (repeating t); repeat split; assumption).
  destruct E as (Ha1 & Hv1 & Hs1 & E1 & E2 & E3 & E4 & E5 & E6).
  destruct (triggerPenalty_outcome recover w1 view Ha1 Hv1 Hs1) as (H1 & H2 & H3).
  pose proof (triggerPenalty_record recover w1 view Ha1 Hv1 Hs1) as H4.
  assert (Hc : getValue (editor view) w1 = getValue (editor view) w)
    by (unfold getValue; now rewrite E2).
  rewrite E3, E4, Hc in H2. rewrite E1 in H4.
  split; [exact H1|]. split; [eauto|]. split; [|split].
  - intros Hr. rewrite Hr in H2. split; [exact H2|].
    intros Hne. rewrite H2. now apply applyPenalty_shorter.
  - intros Hr. now rewrite Hr in H2.
  - intros other Hne. rewrite H3 by assumption. now rewrite E2.
Qed.

Lemma idle_penalty_outcome_witness :
  let w := step (EvEdit 0 (str "a b c d")) scenarioStart in
  let w' := step (EvTimer 4 false) w in
  sessionActive w' = false
  /\ getValue (editor noteView) w'
     = applyPenalty (penaltyType (settings w)) (getValue (editor noteView) w).
Proof.
  destruct (idle_penalty_outcome 4%nat false (mkTimer false 5000 IdleTimeout)
              noteView (step (EvEdit 0 (str "a b c d")) scenarioStart))
    as (H1 & _ & H2 & _); [vm_compute; reflexivity..|].
  split; [exact H1|]. apply H2. reflexivity.
Defined.

(** X15: recovery in practice mode goes back to the start of the session:
    whatever was typed and whatever else happened since [beginSession], when
    the idle timeout fires with the target in front and the user confirms,
    the editor in front holds the text that the editor of the session held
    when the session began, and the target is still the file it began
    on. *)
Theorem practice_recovery_restores_start :
  forall (f : TFile) (ed : nat) (config : SessionConfig) (w0 : World)
         (evs : list Event) (id : nat) (t : Timer) (view : MarkdownView),
    noBegin evs = true ->
    let w := run evs (beginSession f ed config w0) in
    sessionActive w = true ->
    timers w !! id = Some t -> callback t = IdleTimeout ->
    activeView w = Some view ->
    sameFile (file view) (activeFile w) = true ->
    practiceMode (settings w) = true ->
    getValue (editor view) (step (EvTimer id true) w) = getValue ed w0
    /\ activeFile w = Some f
    /\ initialWordCount w = countWords (getValue ed w0).
Proof.
  intros f ed config w0 evs id t view Hb w Ha Ht Hcb Hv Hs Hp.
  destruct (run_keepsTarget evs (beginSession f ed config w0) Hb Ha)
    as (H1 & H2 & H3 & _).
  destruct (beginSession_target f ed config w0) as (B1 & B2 & B3 & _).
  fold w in H1, H2, H3. rewrite B1 in H1. rewrite B2 in H2. rewrite B3 in H3.
  split; [|split; assumption].
  simpl. unfold fireTimer. rewrite Ht, Hcb. simpl.
  set (w1 := if repeating t then w else clearTimer id w).
  assert (E : sessionActive w1 = true /\ activeView w1 = Some view
              /\ sameFile (file view) (activeFile w1) = true
              /\ settings w1 = settings w /\ initialContent w1 = initialContent w)
    by (subst w1; destruct (repeating t); repeat split; assumption).
  destruct E as (Ha1 & Hv1 & Hs1 & E3 & E4).
  destruct (triggerPenalty_outcome true w1 view Ha1 Hv1 Hs1) as (_ & H & _).
  rewrite E3, Hp, E4 in H. simpl in H. rewrite H. exact H2.
Qed.

Lemma practice_recovery_restores_start_witness :
  let w := run [EvEdit 0 (str "a b c d")]
             (beginSession note 0 (mkSessionConfig None (Some 2)) scenarioIdle) in
  getValue (editor noteView) (step (EvTimer 4 true) w) = getValue 0 scenarioIdle.
Proof.
  destruct (practice_recovery_restores_start note 0%nat
              (mkSessionConfig None (Some 2)) scenarioIdle
              [EvEdit 0 (str "a b c d")] 4%nat
              (mkTimer false 5000 IdleTimeout) noteView)
    as (H & _); [vm_compute; reflexivity..|].
  exact H.
Defined.

(** X16: typing in an active session, in a plugin whose timers and handles
    agree, re-arms the watchdog: the activity time becomes now, the
    overlay loses its colour, the idle timeout that was stored is no longer
    pending and a new one is, stored and set to [idleTimeoutSeconds] times
    1000 ms; it is the only idle timeout pending. A new warning poll is
    started, and every warning poll that was pending stays pending: the
    polls add up with the keystrokes. *)
Theorem typing_rearms_watchdog :
  forall (ed : nat) (text : jsstring) (w : World),
    timersOk w -> sessionActive w = true ->
    let w' := step (EvEdit ed text) w in
    let n := nextTimerId w in
    sessionActive w' = true /\ getValue ed w' = text
    /\ lastActivityTime w' = now w
    /\ (forall o, warningOverlay w = Some o -> warningOverlay w' = Some (mkOverlay None))
    /\ idleWatchdogTimeout w' = Some n
    /\ timers w' !! n
       = Some (mkTimer false (idleTimeoutSeconds (settings w) * 1000) IdleTimeout)
    /\ (forall id t, timers w' !! id = Some t -> callback t = IdleTimeout -> id = n)
    /\ timers w' !! S n
       = Some (mkTimer true 50
                 (WarningCheck (warningThresholdSeconds (settings w) * 1000)))
    /\ (forall id t threshold,
          timers w !! id = Some t -> callback t = WarningCheck threshold ->
          timers w' !! id = Some t).
Proof.
  intros ed text w Hok Ha. simpl. unfold onEditorChange.
  set (w1 := setValue ed text w).
  assert (Hok1 : timersOk w1) by (apply (timersOk_same w); [reflexivity..|exact Hok]).
  change (sessionActive w1) with (sessionActive w). rewrite Ha.
  pose proof (resetIdleWatchdog_timersOk w1 Hok1 Ha) as Hok'.
  destruct (resetIdleWatchdog_shape w1) as (S1 & S2 & S3 & S4 & S5).
  destruct (resetIdleWatchdog_keeps w1) as (K1 & _).
  destruct (resetIdleWatchdog_frame w1) as ((_ & K2 & _) & _).
  change (now w1) with (now w) in S4.
  change (nextTimerId w1) with (nextTimerId w) in *.
  change (settings w1) with (settings w) in S1.
  change (warningOverlay w1) with (warningOverlay w) in S5.
  change (idleWatchdogTimeout w1) with (idleWatchdogTimeout w) in S1.
  change (timers w1) with (timers w) in S1.
  split; [rewrite K1; exact Ha|].
  split; [unfold getValue; rewrite K2; subst w1; simpl; now rewrite lookup_insert_eq|].
  split; [exact S4|].
  split; [intros o Ho; rewrite S5, Ho; reflexivity|].
  split; [exact S3|].
  split; [rewrite S1, lookup_insert_ne, lookup_insert_eq by lia; reflexivity|].
  split.
  { intros id t Ht Hcb. destruct Hok' as (_ & _ & IO & _).
    specialize (IO id t Ht Hcb). rewrite S3 in IO. now injection IO as <-. }
  split; [rewrite S1, lookup_insert_eq; reflexivity|].
  intros id t threshold Ht Hcb.
  destruct Hok as (F & _ & _ & _ & IK & _).
  assert (Hlt : (id < nextTimerId w)%nat).
  { destruct (Nat.lt_ge_cases id (nextTimerId w)) as [|Hge]; [assumption|].
    rewrite (F id Hge) in Ht. discriminate. }
  rewrite S1, !lookup_insert_ne by lia.
  destruct (idleWatchdogTimeout w) as [h|] eqn:Eh; simpl; [|exact Ht].
  rewrite lookup_delete_ne; [exact Ht|]. intros ->.
  destruct (IK id t eq_refl Ht) as [_ H]. congruence.
Qed.

Lemma typing_rearms_watchdog_witness :
  let w' := step (EvEdit 0 (str "a b c d")) scenarioStart in
  idleWatchdogTimeout w' = Some (nextTimerId scenarioStart)
  /\ timers w' !! 3%nat = Some (mkTimer true 50 (WarningCheck 3000)).
Proof.
  assert (Hok : timersOk scenarioStart).
  { apply beginSession_timersOk; [apply initialWorld_timersOk | reflexivity]. }
  destruct (typing_rearms_watchdog 0%nat (str "a b c d") scenarioStart Hok eq_refl)
    as (_ & _ & _ & _ & H1 & _ & _ & _ & H2).
  split; [exact H1|].
  apply (H2 3%nat _ 3000); reflexivity.
Defined.

(** X17: the figures of the status bar of an active session, for clock
    values, durations and settings below [2 ^ 51], where the divisions of
    the code are exact. The idle seconds shown are the remaining idle time
    rounded up to whole seconds, and 0 when nothing remains. While idle
    time remains, the status bar takes the warning class exactly when the
    remaining time is within [warningThresholdSeconds], and for the same
    threshold it agrees with the overlay, which a warning poll colours
    exactly then. When no idle time remains and the session is still
    active, the two disagree: the status bar shows 0 seconds with the
    warning class (for a threshold that is not negative), while the poll
    clears the overlay and removes itself. In duration mode the minutes and
    seconds shown are the time left rounded down to whole seconds, seconds
    below 60. *)
Theorem status_bar_figures :
  forall w : World,
    sessionActive w = true ->
    safeNumbers w ->
    exists progress idleRemaining,
      updateStatusBar w
      = StatusActive progress idleRemaining
          (idleRemaining <=? warningThresholdSeconds (settings w))
      /\ 0 <= idleRemaining
      /\ (remainingIdle w <= 0 ->
          idleRemaining = 0
          /\ (0 <= warningThresholdSeconds (settings w) ->
              (idleRemaining <=? warningThresholdSeconds (settings w)) = true)
          /\ forall id threshold o, warningOverlay w = Some o ->
               warningOverlay (warningCheck id threshold w) = Some (mkOverlay None)
               /\ timers (warningCheck id threshold w) !! id = None)
      /\ (0 < remainingIdle w ->
          1000 * (idleRemaining - 1) < remainingIdle w <= 1000 * idleRemaining
          /\ (idleRemaining <=? warningThresholdSeconds (settings w))
             = (remainingIdle w <=? warningThresholdSeconds (settings w) * 1000)
          /\ forall id o, warningOverlay w = Some o ->
               warningOverlay
                 (warningCheck id (warningThresholdSeconds (settings w) * 1000) w)
               = Some (mkOverlay
                         (if idleRemaining <=? warningThresholdSeconds (settings w)
                          then Some (opacityOf
                                       (easedProgress (remainingIdle w)
                                          (warningThresholdSeconds (settings w) * 1000)))
                          else None)))
      /\ (wordCountGoal w = None ->
          exists minutes seconds,
            progress = TimeLeft minutes seconds
            /\ 0 <= minutes /\ 0 <= seconds < 60
            /\ let remaining :=
                 Z.max 0 (sessionDurationMs w - (now w - sessionStartTime w)) in
               60000 * minutes + 1000 * seconds <= remaining
               < 60000 * minutes + 1000 * seconds + 1000).
Proof.
  intros w Ha _. unfold updateStatusBar. rewrite Ha. simpl.
  eexists. eexists. split; [reflexivity|].
  set (idle := idleTimeoutSeconds (settings w)).
  set (thr := warningThresholdSeconds (settings w)).
  set (idleTime := now w - lastActivityTime w).
  assert (Hrem : remainingIdle w = idle * 1000 - idleTime) by reflexivity.
  pose proof (Z.div_mod idleTime 1000 ltac:(lia)) as Hdm.
  pose proof (Z.mod_pos_bound idleTime 1000 ltac:(lia)) as Hmb.
  split; [lia|]. split; [|split].
  - intros Hle. rewrite Hrem in Hle.
    assert (H0 : Z.max 0 (idle - idleTime / 1000) = 0) by lia.
    split; [exact H0|]. split.
    + intros Hthr. rewrite H0. now apply Z.leb_le.
    + intros id threshold o Ho. unfold warningCheck. rewrite Ha. simpl.
      fold idleTime. fold idle.
      destruct (Z.leb_spec (idle * 1000 - idleTime) 0); [|lia].
      unfold paintOverlay, clearTimer. simpl. rewrite Ho. simpl.
      split; [reflexivity | apply lookup_delete_eq].
  - intros Hpos. rewrite Hrem in *.
    assert (Hb : 1000 * (Z.max 0 (idle - idleTime / 1000) - 1) < idle * 1000 - idleTime
                 <= 1000 * Z.max 0 (idle - idleTime / 1000)) by lia.
    assert (Heq : (Z.max 0 (idle - idleTime / 1000) <=? thr)
                  = (idle * 1000 - idleTime <=? thr * 1000)).
    { destruct (Z.leb_spec (Z.max 0 (idle - idleTime / 1000)) thr),
        (Z.leb_spec (idle * 1000 - idleTime) (thr * 1000)); try reflexivity; lia. }
    split; [exact Hb|]. split; [exact Heq|].
    intros id o Ho. unfold warningCheck. rewrite Ha. simpl.
    fold idleTime. fold idle.
    destruct (Z.leb_spec (idle * 1000 - idleTime) 0); [lia|].
    rewrite Ho. unfold paintOverlay. rewrite Ho. rewrite Heq.
    fold thr. destruct (idle * 1000 - idleTime <=? thr * 1000); reflexivity.
  - intros Hg. rewrite Hg.
    set (remaining := Z.max 0 (sessionDurationMs w - (now w - sessionStartTime w))).
    exists (remaining / 60000), (Z.rem remaining 60000 / 1000).
    split; [reflexivity|].
    assert (Hr : 0 <= remaining) by (subst remaining; lia).
    rewrite Z.rem_mod_nonneg by lia.
    pose proof (Z.div_mod remaining 60000 ltac:(lia)).
    pose proof (Z.mod_pos_bound remaining 60000 ltac:(lia)).
    pose proof (Z.div_mod (remaining mod 60000) 1000 ltac:(lia)).
    pose proof (Z.mod_pos_bound (remaining mod 60000) 1000 ltac:(lia)).
    assert (0 <= remaining / 60000) by (apply Z.div_pos; lia).
    assert (0 <= remaining mod 60000 / 1000 < 60)
      by (split; [apply Z.div_pos; lia | apply Z.div_lt_upper_bound; lia]).
    lia.
Qed.

Lemma status_bar_figures_witness :
  exists progress idleRemaining,
    updateStatusBar (step (EvClock 6000) scenarioStart)
    = StatusActive progress idleRemaining
        (idleRemaining
         <=? warningThresholdSeconds (settings (step (EvClock 6000) scenarioStart)))
    /\ idleRemaining = 0
    /\ warningOverlay (warningCheck 3 3000 (step (EvClock 6000) scenarioStart))
       = Some (mkOverlay None).
Proof.
  assert (Hsafe : safeNumbers (step (EvClock 6000) scenarioStart)).
  { unfold safeNumbers.
    repeat (apply List.Forall_cons; [vm_compute; reflexivity|]).
    apply List.Forall_nil. }
  destruct (status_bar_figures (step (EvClock 6000) scenarioStart) eq_refl Hsafe)
    as (progress & idleRemaining & H1 & _ & H2 & _).
  destruct H2 as (H3 & _ & H4); [vm_compute; discriminate|].
  exists progress, idleRemaining. split; [exact H1|]. split; [exact H3|].
  apply (H4 3%nat 3000 (mkOverlay None)). reflexivity.
Defined.

(** X18: [startSession] refuses while a session is active and when no
    Markdown view with a file is in front. When it opens the dialog, the
    session begun from it is on the file and the editor of the active view:
    its target is in front, it has saved the text of that editor and its
    word count, and it starts now. *)
Theorem startSession_begins_on_active_view :
  (forall w : World, sessionActive w = true -> startSession w = None)
  /\ (forall w : World, activeView w = None -> startSession w = None)
  /\ (forall (w : World) (f : TFile) (ed : nat) (config : SessionConfig),
        startSession w = Some (f, ed) ->
        sessionActive w = false
        /\ activeView w = Some (mkMarkdownView (Some f) ed)
        /\ let w' := beginSession f ed config w in
           sessionActive w' = true /\ ~ unreachable w'
           /\ activeFile w' = Some f
           /\ initialContent w' = getValue ed w
           /\ initialWordCount w' = countWords (getValue ed w)
           /\ sessionStartTime w' = now w).
Proof.
  split; [|split].
  - intros w Ha. unfold startSession. now rewrite Ha.
  - intros w Hv. unfold startSession. rewrite Hv. now destruct (sessionActive w).
  - intros w f ed config Hs. unfold startSession in Hs.
    destruct (sessionActive w) eqn:Ha; [discriminate|].
    destruct (activeView w) as [[vf ved]|] eqn:Hv; [|discriminate].
    simpl in Hs. destruct vf as [f'|]; [|discriminate].
    injection Hs as -> ->.
    split; [reflexivity|]. split; [reflexivity|].
    destruct (beginSession_target f ed config w)
      as (B1 & B2 & B3 & B4 & _ & _ & B5 & _).
    destruct (beginSession_goal f ed config w) as (B6 & _).
    split; [exact B6|].
    split; [|repeat split; assumption].
    unfold unreachable. rewrite B5, Hv, B1. simpl.
    rewrite Nat.eqb_refl. discriminate.
Qed.

Lemma startSession_begins_on_active_view_witness :
  startSession scenarioStart = None
  /\ sessionActive scenarioIdle = false.
Proof.
  destruct startSession_begins_on_active_view as (H1 & _ & H2).
  split; [apply H1; reflexivity|].
  apply (H2 scenarioIdle note 0%nat (mkSessionConfig None (Some 2))). reflexivity.
Defined.

(** X19: a goal check that finds the goal reached while the target is not
    in the active Markdown view ends the session without a trace: no
    record is added, completed or not, and no text changes. *)
Theorem goal_reached_out_of_view_ends_silently :
  forall (id : nat) (recover : bool) (t : Timer) (ed : nat) (w : World),
    timers w !! id = Some t -> callback t = GoalCheck ed ->
    sessionActive w = true -> goalReached ed w -> unreachable w ->
    let w' := step (EvTimer id recover) w in
    sessionActive w' = false /\ sessions w' = sessions w
    /\ editors w' = editors w.
Proof.
  intros id recover t ed w Ht Hcb Ha Hr Hu. simpl.
  unfold fireTimer. rewrite Ht, Hcb. simpl.
  set (w1 := if repeating t then w else clearTimer id w).
  assert (E : sessionActive w1 = true /\ goalReached ed w1 /\ unreachable w1
              /\ sessions w1 = sessions w /\ editors w1 = editors w)
    by (subst w1; destruct (repeating t); repeat split; assumption).
  destruct E as (Ha1 & Hr1 & Hu1 & E1 & E2).
  rewrite (goalCheck_reached ed w1 Hr1).
  rewrite (completeSession_unreachable w1 Ha1 Hu1).
  rewrite stopSession_inactive, stopSession_sessions, stopSession_editors.
  auto.
Qed.

Lemma goal_reached_out_of_view_ends_silently_witness :
  let w := step (EvActiveLeafChange (Some ViewOther))
             (step (EvEdit 0 (str "a b c d e")) scenarioStart) in
  let w' := step (EvTimer 1 false) w in
  sessionActive w' = false /\ sessions w' = sessions w
  /\ editors w' = editors w.
Proof.
  apply (goal_reached_out_of_view_ends_silently 1%nat false
           (mkTimer true 1000 (GoalCheck 0)) 0%nat);
    [vm_compute; reflexivity | reflexivity | vm_compute; reflexivity
    | vm_compute; discriminate | exact I].
Defined.
